(** * zscan, package [stage]: the IP information resolver ([ipinfo.go])

    A shallow embedding of [pkg/stage/ipinfo.go] and the properties of its
    specification.  Go maps are finite maps with a [nil] case, Go errors are
    their messages, and the calls that reach outside the process (file system,
    HTTP, the GeoIP readers) act on an explicit world that records what was
    done. *)

From Stdlib Require Import ZArith Strings.Byte Strings.Ascii.
From Stdlib Require Import Floats.PrimFloat.
From stdpp Require Import base option list strings gmap.

Local Open Scope string_scope.

(** ** Go values *)

(** A Go [error] is used by this file only through its message: every
    wrapping is [fmt.Errorf] with the verb [%v], which formats the message of
    the wrapped error into the new one. *)
Definition error := string.

(** [(T, error)] results where exactly one side is meaningful. *)
Inductive result (A : Type) : Type :=
| Ok (a : A)
| Err (e : error).
Arguments Ok {A} a.
Arguments Err {A} e.

(** A Go [map[string]string]; [None] is the [nil] map. *)
Abbreviation gomap := (option (gmap string string)).

(** [name, ok := names[key]]: reading a [nil] map finds nothing. *)
Definition map_index (names : gomap) (key : string) : option string :=
  match names with
  | None => None
  | Some m => m !! key
  end.

(** ** [getLocalizedName] *)

Definition getLocalizedName (names : gomap) (lang : string) : string :=
  match names with
  | None => ""
  | Some _ =>
      match map_index names lang with
      | Some name => name
      | None =>
          match map_index names "en" with
          | Some name => name
          | None => ""
          end
      end
  end.

(** ** Data model *)

(** [net.IP]: a byte slice. *)
Abbreviation IP := (list byte).

#[global] Instance byte_eq_dec : EqDecision byte := Byte.byte_eq_dec.

(** [uint16(x)] on an unsigned value. *)
Definition uint16 (x : Z) : Z := (x mod 2 ^ 16)%Z.

(** The records of [github.com/oschwald/geoip2-golang] read by the resolver,
    with the fields it uses. *)
Module geoip2.

Record CityName := {
  City_Names : gomap;
}.

Record ContinentRec := {
  Continent_Names : gomap;
  Continent_Code : string;
}.

(** The country and each subdivision. *)
Record Place := {
  Names : gomap;
  IsoCode : string;
}.

Record LocationRec := {
  TimeZone : string;
  Latitude : float;
  Longitude : float;
  AccuracyRadius : Z;   (* uint16 *)
}.

Record City := {
  City_ : CityName;
  Postal_Code : string;
  Continent : ContinentRec;
  Subdivisions : list Place;
  Country : Place;
  Location : LocationRec;
}.

Record ASN := {
  AutonomousSystemNumber : Z;   (* uint *)
  AutonomousSystemOrganization : string;
}.

(** The content of one database file, as a reader over it answers: the
    database type of its metadata and the methods that type supports, what a
    lookup finds, and what closing the reader returns. *)
Record Database := {
  db_type : string;
  has_City : bool;
  has_ASN : bool;
  db_City : IP → result City;
  db_ASN : IP → result ASN;
  db_Close : option error;
}.

(** [InvalidMethodError{method, databaseType}.Error()] *)
Definition InvalidMethodError (method databaseType : string) : error :=
  "geoip2: the " ++ method ++ " method does not support the "
  ++ databaseType ++ " database".

End geoip2.

(** [*geoip2.Reader]: [None] is the nil pointer, [Some h] points to the
    reader number [h] of the world. *)
Definition Reader := option nat.

Record IPInfo := {
  cityReader : Reader;
  asnReader : Reader;
  dbDir : string;
}.

Record IPDetails := {
  Continent : string;
  ContinentCode : string;
  Country : string;
  CountryCode : string;
  Region : string;
  RegionCode : string;
  City : string;
  PostalCode : string;
  Latitude : float;
  Longitude : float;
  TimeZone : string;

  ASN : Z;
  ASNOrg : string;
  ISP : string;
  Domain : string;
  NetworkType : string;

  IsAnonymous : bool;
  IsAnonymousVPN : bool;
  IsHosting : bool;
  IsProxy : bool;
  IsTorExitNode : bool;
  AccuracyRadius : Z;
}.

Definition cityDBURL : string :=
  "https://raw.githubusercontent.com/zcyberseclab/zscan/main/data/GeoLite2-City.mmdb".
Definition asnDBURL : string :=
  "https://raw.githubusercontent.com/zcyberseclab/zscan/main/data/GeoLite2-ASN.mmdb".

(** ** The world outside the process *)

(** An HTTP response as [downloadFile] reads it: the status, the bytes the
    body delivers, and the error (if any) with which reading the body ends. *)
Record Response := {
  StatusCode : Z;
  Status : string;
  Body : list byte;
  BodyErr : option error;
}.

(** What the surroundings answer.  These are the calls into the Go library
    and the operating system whose results the code branches on. *)
Record Env := {
  net_ParseIP : string → option IP;
  UserHomeDir : result string;
  MkdirAll : string → option error;
  Get : string → result Response;
  (* [os.Stat] failing on a path otherwise than with not-exist *)
  Stat_fault : string → option error;
  (* [os.Create] refusing a path *)
  Create_fault : string → option error;
  (* a write to the path failing once so many bytes are on disk *)
  Write_fault : string → option (nat * error);
  (* what [Close] returns for the file written at a path, and for the body
     of the response to a URL *)
  File_Close_fault : string → option error;
  Body_Close_fault : string → option error;
  (* [geoip2.Open] reading the bytes of a file *)
  mmdb_decode : list byte → result geoip2.Database;
}.

Record ReaderState := {
  rd_db : geoip2.Database;
  rd_open : bool;
}.

Inductive Event :=
| EvMkdirAll (dir : string)
| EvStat (path : string)
| EvHttpGet (url : string)
| EvCreate (path : string)
| EvOpen (path : string)
| EvReaderClose (h : nat)
| EvCity (h : nat) (ip : IP)
| EvASN (h : nat) (ip : IP).

Record World := {
  files : gmap string (list byte);
  readers : list ReaderState;
  trace : list Event;
}.

Definition log (ev : Event) (w : World) : World :=
  {| files := files w; readers := readers w; trace := (trace w ++ [ev])%list |}.

Definition set_files (fs : gmap string (list byte)) (w : World) : World :=
  {| files := fs; readers := readers w; trace := trace w |}.

Definition set_readers (rs : list ReaderState) (w : World) : World :=
  {| files := files w; readers := rs; trace := trace w |}.

(** ** Computations: a state monad over the world, with Go's panic *)

Inductive Res (A : Type) : Type :=
| Done (a : A)
| Panic.
Arguments Done {A} a.
Arguments Panic {A}.

Definition M (A : Type) : Type := World → Res A * World.

#[global] Instance M_ret : MRet M := λ A a w, (Done a, w).
#[global] Instance M_bind : MBind M := λ A B f m w,
  match m w with
  | (Done a, w') => f a w'
  | (Panic, w') => (Panic, w')
  end.

Definition panic {A} : M A := λ w, (Panic, w).
Definition emit (ev : Event) : M unit := λ w, (Done tt, log ev w).

(** ** [path/filepath] *)

(** The elements of a path between its separators. *)
Fixpoint elements_of (s : string) : list string :=
  match s with
  | EmptyString => [""]
  | String c s' =>
      if Ascii.eqb c "/"%char then "" :: elements_of s'
      else match elements_of s' with
           | x :: xs => String c x :: xs
           | [] => [String c ""]
           end
  end.

(** [strings.Join(elems, sep)]. *)
Fixpoint strings_Join (elems : list string) (sep : string) : string :=
  match elems with
  | [] => ""
  | [x] => x
  | x :: rest => x ++ sep ++ strings_Join rest sep
  end.

(** One element met by [Clean]; [out] holds the elements kept so far, the
    last one first.  Empty and [.] elements are dropped, [..] removes the
    element before it when there is one to remove and is kept at the start of
    a path that is not rooted. *)
Definition clean_step (rooted : bool) (out : list string) (el : string) : list string :=
  if decide (el = "") then out
  else if decide (el = ".") then out
  else if decide (el = "..") then
    match out with
    | top :: rest =>
        if decide (top = "..") then (if rooted then out else ".." :: out)
        else rest
    | [] => if rooted then [] else [".."]
    end
  else el :: out.

Definition is_rooted (path : string) : bool :=
  match path with
  | String c _ => Ascii.eqb c "/"%char
  | EmptyString => false
  end.

(** [filepath.Clean] with [/] as the separator. *)
Definition Clean (path : string) : string :=
  let rooted := is_rooted path in
  let out := rev (foldl (clean_step rooted) [] (elements_of path)) in
  let body := strings_Join out "/" in
  let res := if rooted then "/" ++ body else body in
  if decide (res = "") then "." else res.

(** [filepath.Join]: leading empty elements are skipped, the rest is joined
    with the separator and cleaned. *)
Fixpoint filepath_Join (elem : list string) : string :=
  match elem with
  | [] => ""
  | e :: rest =>
      if decide (e = "") then filepath_Join rest
      else Clean (strings_Join elem "/")
  end.

(** ** Calls whose answer is a function of the state *)

(** The error of [os.Stat], as far as the code tells the cases apart: nil,
    the error for a path that does not exist, or another error. *)
Inductive StatError :=
| StatNil
| ErrNotExist
| StatOther (err : error).

(** [os.IsNotExist(err)] *)
Definition IsNotExist (err : StatError) : bool :=
  match err with
  | ErrNotExist => true
  | _ => false
  end.

(** [_, err := os.Stat(path)] *)
Definition os_Stat (E : Env) (fs : gmap string (list byte)) (path : string) : StatError :=
  match Stat_fault E path with
  | Some err => StatOther err
  | None =>
      match fs !! path with
      | Some _ => StatNil
      | None => ErrNotExist
      end
  end.

Definition closed_database : error := "cannot call Lookup on a closed database".

(** [r.City(ip)] on the reader in state [st]: the method is refused for a
    database type without city data; else the lookup runs, and fails on a
    closed reader. *)
Definition City_of (st : ReaderState) (ip : IP) : result geoip2.City :=
  if negb (geoip2.has_City (rd_db st))
  then Err (geoip2.InvalidMethodError "City" (geoip2.db_type (rd_db st)))
  else if rd_open st then geoip2.db_City (rd_db st) ip
  else Err closed_database.

(** [r.ASN(ip)], in the same way. *)
Definition ASN_of (st : ReaderState) (ip : IP) : result geoip2.ASN :=
  if negb (geoip2.has_ASN (rd_db st))
  then Err (geoip2.InvalidMethodError "ASN" (geoip2.db_type (rd_db st)))
  else if rd_open st then geoip2.db_ASN (rd_db st) ip
  else Err closed_database.

(** ** The calls into the libraries, as actions on the world

    The [sync.RWMutex] of the resolver orders calls made from several
    goroutines; the embedding is of one call running alone and leaves the
    lock out. *)

Section Program.

Variable E : Env.

(** [_, err := os.Stat(path); os.IsNotExist(err)] *)
Definition Stat_IsNotExist (path : string) : M bool := λ w,
  (Done (IsNotExist (os_Stat E (files w) path)), log (EvStat path) w).

Definition os_MkdirAll (dir : string) : M (option error) := λ w,
  (Done (MkdirAll E dir), log (EvMkdirAll dir) w).

Definition http_Get (url : string) : M (result Response) := λ w,
  (Done (Get E url), log (EvHttpGet url) w).

(** [os.Create]: the file exists and is empty afterwards, unless the call
    is refused.  The open file is named by its path. *)
Definition os_Create (path : string) : M (result string) := λ w,
  match Create_fault E path with
  | Some err => (Done (Err err), log (EvCreate path) w)
  | None => (Done (Ok path), log (EvCreate path) (set_files (<[path := []]> (files w)) w))
  end.

(** [io.Copy(out, resp.Body)]: the bytes of the body are appended to the
    file as far as the disk takes them; the result is the write error, else
    the error that ended the body, else nil. *)
Definition io_Copy (out : string) (resp : Response) : M (option error) := λ w,
  let old := default [] (files w !! out) in
  match Write_fault E out with
  | Some (n, err) =>
      if bool_decide (n < length (Body resp))
      then (Done (Some err),
            set_files (<[out := (old ++ take n (Body resp))%list]> (files w)) w)
      else (Done (BodyErr resp),
            set_files (<[out := (old ++ Body resp)%list]> (files w)) w)
  | None =>
      (Done (BodyErr resp), set_files (<[out := (old ++ Body resp)%list]> (files w)) w)
  end.

(** [geoip2.Open]: a new reader over the content of the file, or nil and
    an error; a failed open leaves no reader behind. *)
Definition geoip2_Open (file : string) : M (Reader * option error) := λ w,
  let w := log (EvOpen file) w in
  match files w !! file with
  | None => (Done (None, Some ("open " ++ file ++ ": no such file or directory")), w)
  | Some content =>
      match mmdb_decode E content with
      | Err err => (Done (None, Some err), w)
      | Ok db =>
          (Done (Some (length (readers w)), None),
           set_readers (readers w ++ [{| rd_db := db; rd_open := true |}])%list w)
      end
  end.

(** A method call through a [*geoip2.Reader]: a nil pointer panics. *)
Definition deref (r : Reader) : M (nat * ReaderState) := λ w,
  match r with
  | None => (Panic, w)
  | Some h =>
      match readers w !! h with
      | Some st => (Done (h, st), w)
      | None => (Panic, w)
      end
  end.

Definition mark_closed (h : nat) (st : ReaderState) : M unit := λ w,
  (Done tt, set_readers (<[h := {| rd_db := rd_db st; rd_open := false |}]> (readers w)) w).

(** [r.Close()]: the reader is closed afterwards, whatever it was before,
    and the call returns what the database gives for it. *)
Definition Reader_Close (r : Reader) : M (option error) :=
  '(h, st) ← deref r;
  emit (EvReaderClose h);;
  mark_closed h st;;
  mret (geoip2.db_Close (rd_db st)).

(** [r.City(ip)] *)
Definition Reader_City (r : Reader) (ip : IP) : M (result geoip2.City) :=
  '(h, st) ← deref r;
  emit (EvCity h ip);;
  mret (City_of st ip).

(** [r.ASN(ip)] *)
Definition Reader_ASN (r : Reader) (ip : IP) : M (result geoip2.ASN) :=
  '(h, st) ← deref r;
  emit (EvASN h ip);;
  mret (ASN_of st ip).

(** [out.Close()] and [resp.Body.Close()]: they change nothing the world
    keeps, and return an error or nil. *)
Definition File_Close (out : string) : M (option error) := λ w,
  (Done (File_Close_fault E out), w).
Definition Body_Close (url : string) : M (option error) := λ w,
  (Done (Body_Close_fault E url), w).

(** ** [downloadFile]

    A deferred call runs when the function returns, after the result is
    fixed; what it returns is dropped. *)

Definition downloadFile (url filepath : string) : M (option error) :=
  r ← http_Get url;
  match r with
  | Err err => mret (Some err)
  | Ok resp =>
      (* defer resp.Body.Close() *)
      res ← (if bool_decide (StatusCode resp ≠ 200%Z)
             then mret (Some ("bad status: " ++ Status resp))
             else
               r ← os_Create filepath;
               match r with
               | Err err => mret (Some err)
               | Ok out =>
                   (* defer out.Close() *)
                   err ← io_Copy out resp;
                   File_Close out;;
                   mret err
               end);
      Body_Close url;;
      mret res
  end.

(** ** [ensureDatabases]

    The method works on the resolver behind the pointer [i]; the embedding
    returns the resolver as the call leaves it, next to the error. *)

Definition with_cityReader (i : IPInfo) (r : Reader) : IPInfo :=
  {| cityReader := r; asnReader := asnReader i; dbDir := dbDir i |}.
Definition with_asnReader (i : IPInfo) (r : Reader) : IPInfo :=
  {| cityReader := cityReader i; asnReader := r; dbDir := dbDir i |}.

Definition cityDB_of (dir : string) : string := filepath_Join [dir; "GeoLite2-City.mmdb"].
Definition asnDB_of (dir : string) : string := filepath_Join [dir; "GeoLite2-ASN.mmdb"].

(** [if _, err := os.Stat(db); os.IsNotExist(err) { downloadFile(url, db) }] *)
Definition download_if_missing (url db : string) : M (option error) :=
  missing ← Stat_IsNotExist db;
  if (missing : bool) then downloadFile url db else mret None.

Definition ensureDatabases (i : IPInfo) : M (option error * IPInfo) :=
  let cityDB := cityDB_of (dbDir i) in
  let asnDB := asnDB_of (dbDir i) in
  err ← download_if_missing cityDBURL cityDB;
  match err with
  | Some err => mret (Some ("failed to download city database: " ++ err), i)
  | None =>
      err ← download_if_missing asnDBURL asnDB;
      match err with
      | Some err => mret (Some ("failed to download ASN database: " ++ err), i)
      | None =>
          '(r, err) ← geoip2_Open cityDB;
          let i := with_cityReader i r in
          match err with
          | Some err => mret (Some ("failed to open city database: " ++ err), i)
          | None =>
              '(r, err) ← geoip2_Open asnDB;
              let i := with_asnReader i r in
              match err with
              | Some err =>
                  Reader_Close (cityReader i);;
                  mret (Some ("failed to open ASN database: " ++ err), i)
              | None => mret (None, i)
              end
          end
      end
  end.

(** ** [NewIPInfo] *)

Definition NewIPInfo (dbDir : string) : M (result IPInfo) :=
  let dir :=
    if decide (dbDir = "") then
      match UserHomeDir E with
      | Err err => Err ("failed to get user home directory: " ++ err)
      | Ok userHome => Ok (filepath_Join [userHome; ".zscan"; "geoip"])
      end
    else Ok dbDir in
  match dir with
  | Err err => mret (Err err)
  | Ok dbDir =>
      err ← os_MkdirAll dbDir;
      match err with
      | Some err => mret (Err ("failed to create database directory: " ++ err))
      | None =>
          let i := {| cityReader := None; asnReader := None; dbDir := dbDir |} in
          '(err, i) ← ensureDatabases i;
          match err with
          | Some err => mret (Err err)
          | None => mret (Ok i)
          end
      end
  end.

(** ** [GetIPInfo]

    [i.mu.RLock()] and the deferred [i.mu.RUnlock()] are left out with the
    lock. *)

Definition with_Region (d : IPDetails) (region regionCode : string) : IPDetails :=
  {| Continent := Continent d; ContinentCode := ContinentCode d;
     Country := Country d; CountryCode := CountryCode d;
     Region := region; RegionCode := regionCode;
     City := City d; PostalCode := PostalCode d;
     Latitude := Latitude d; Longitude := Longitude d; TimeZone := TimeZone d;
     ASN := ASN d; ASNOrg := ASNOrg d; ISP := ISP d; Domain := Domain d;
     NetworkType := NetworkType d;
     IsAnonymous := IsAnonymous d; IsAnonymousVPN := IsAnonymousVPN d;
     IsHosting := IsHosting d; IsProxy := IsProxy d;
     IsTorExitNode := IsTorExitNode d; AccuracyRadius := AccuracyRadius d |}.

(** The composite literal [&IPDetails{...}]: the fields it does not name
    hold the zero value of their type. *)
Definition details_literal (city : geoip2.City) (asn : geoip2.ASN) : IPDetails :=
  {| Continent := getLocalizedName (geoip2.Continent_Names (geoip2.Continent city)) "en";
     ContinentCode := geoip2.Continent_Code (geoip2.Continent city);
     Country := getLocalizedName (geoip2.Names (geoip2.Country city)) "en";
     CountryCode := geoip2.IsoCode (geoip2.Country city);
     City := getLocalizedName (geoip2.City_Names (geoip2.City_ city)) "en";
     TimeZone := geoip2.TimeZone (geoip2.Location city);
     PostalCode := geoip2.Postal_Code city;
     Latitude := geoip2.Latitude (geoip2.Location city);
     Longitude := geoip2.Longitude (geoip2.Location city);
     ASN := geoip2.AutonomousSystemNumber asn;
     ASNOrg := geoip2.AutonomousSystemOrganization asn;
     AccuracyRadius := uint16 (geoip2.AccuracyRadius (geoip2.Location city));
     Region := ""; RegionCode := "";
     ISP := ""; Domain := ""; NetworkType := "";
     IsAnonymous := false; IsAnonymousVPN := false; IsHosting := false;
     IsProxy := false; IsTorExitNode := false |}.

Definition compose_details (city : geoip2.City) (asn : geoip2.ASN) : IPDetails :=
  let details := details_literal city asn in
  match geoip2.Subdivisions city with
  | s0 :: _ =>
      with_Region details (getLocalizedName (geoip2.Names s0) "en") (geoip2.IsoCode s0)
  | [] => details
  end.

Definition GetIPInfo (i : IPInfo) (ip : string) : M (result IPDetails) :=
  match net_ParseIP E ip with
  | None => mret (Err "invalid IP address")
  | Some parsedIP =>
      r ← Reader_City (cityReader i) parsedIP;
      match r with
      | Err err => mret (Err ("failed to query city information: " ++ err))
      | Ok city =>
          r ← Reader_ASN (asnReader i) parsedIP;
          match r with
          | Err err => mret (Err ("failed to query ASN information: " ++ err))
          | Ok asn => mret (Ok (compose_details city asn))
          end
      end
  end.

(** ** [Close]

    Without [i.mu.Lock()] and the deferred [i.mu.Unlock()].  What the two
    [Close] calls on the readers return is dropped: the method returns
    nothing. *)

Definition Close (i : IPInfo) : M unit :=
  (if bool_decide (cityReader i ≠ None)
   then Reader_Close (cityReader i);; mret tt else mret tt);;
  (if bool_decide (asnReader i ≠ None)
   then Reader_Close (asnReader i);; mret tt else mret tt).

End Program.

(** ** The error kinds of the specification

    The source has no error types: a kind is recognised by the fixed text with
    which [fmt.Errorf] starts the message. *)

Definition ConfigError (e : error) : bool :=
  String.prefix "failed to get user home directory: " e
  || String.prefix "failed to create database directory: " e.

Definition DownloadError (e : error) : bool :=
  String.prefix "failed to download city database: " e
  || String.prefix "failed to download ASN database: " e.

Definition DatabaseOpenError (e : error) : bool :=
  String.prefix "failed to open city database: " e
  || String.prefix "failed to open ASN database: " e.

Definition InvalidAddressError (e : error) : bool :=
  String.eqb e "invalid IP address".

Definition CityLookupError (e : error) : bool :=
  String.prefix "failed to query city information: " e.

Definition ASNLookupError (e : error) : bool :=
  String.prefix "failed to query ASN information: " e.

(** ** Reading a trace *)

(** The URLs fetched over the network. *)
Definition fetches (evs : list Event) : list string :=
  omap (λ ev, match ev with EvHttpGet url => Some url | _ => None end) evs.

(** The readers queried, by [City] or by [ASN]. *)
Definition queried (evs : list Event) : list nat :=
  omap (λ ev, match ev with EvCity h _ | EvASN h _ => Some h | _ => None end) evs.

(** The readers closed. *)
Definition closed (evs : list Event) : list nat :=
  omap (λ ev, match ev with EvReaderClose h => Some h | _ => None end) evs.

(** The reader behind a pointer is open. *)
Definition is_open (w : World) (r : Reader) : bool :=
  match r with
  | Some h =>
      match readers w !! h with
      | Some st => rd_open st
      | None => false
      end
  | None => false
  end.

(** The numbers of the readers that are open. *)
Definition open_readers (w : World) : list nat :=
  filter (λ h, is_open w (Some h) = true) (seq 0 (length (readers w))).

(** A pointer is nil or points to a reader of the world. *)
Definition valid_reader (w : World) (r : Reader) : Prop :=
  match r with
  | Some h => h < length (readers w)
  | None => True
  end.

(** The state of the readers after [r.Close()] on a pointer that [Close]
    found not nil. *)
Definition close_in (r : Reader) (rs : list ReaderState) : list ReaderState :=
  match r with
  | Some h =>
      match rs !! h with
      | Some st => <[h := {| rd_db := rd_db st; rd_open := false |}]> rs
      | None => rs
      end
  | None => rs
  end.

Definition close_event (r : Reader) : list Event :=
  match r with
  | Some h => [EvReaderClose h]
  | None => []
  end.

(** What [r.Close()] returns, given the readers of the world. *)
Definition close_answer (rs : list ReaderState) (r : Reader) : option error :=
  match r with
  | Some h =>
      match rs !! h with
      | Some st => geoip2.db_Close (rd_db st)
      | None => None
      end
  | None => None
  end.

(** What the reader behind a pointer answers for an address, given the
    readers of the world. *)
Definition city_answer (rs : list ReaderState) (r : Reader) (ip : IP)
  : Res (result geoip2.City) :=
  match r with
  | Some h =>
      match rs !! h with
      | Some st => Done (City_of st ip)
      | None => Panic
      end
  | None => Panic
  end.

Definition asn_answer (rs : list ReaderState) (r : Reader) (ip : IP)
  : Res (result geoip2.ASN) :=
  match r with
  | Some h =>
      match rs !! h with
      | Some st => Done (ASN_of st ip)
      | None => Panic
      end
  | None => Panic
  end.

(** [os.Stat] says that there is no file at the path: the condition under
    which [ensureDatabases] fetches it. *)
Definition missing (E : Env) (fs : gmap string (list byte)) (path : string) : bool :=
  IsNotExist (os_Stat E fs path).

(** ** Where an error comes from *)

(** The failures under an error of [downloadFile url path]: the transport
    error of the request, a status that is not 200, [os.Create] refusing the
    path, a write that fails, or the error that ends the body. *)
Definition download_cause (E : Env) (url path : string) (c : error) : Prop :=
  Get E url = Err c
  ∨ (∃ resp, Get E url = Ok resp ∧ StatusCode resp ≠ 200%Z
             ∧ c = "bad status: " ++ Status resp)
  ∨ (∃ resp, Get E url = Ok resp ∧ StatusCode resp = 200%Z
             ∧ Create_fault E path = Some c)
  ∨ (∃ resp n, Get E url = Ok resp ∧ StatusCode resp = 200%Z
               ∧ Create_fault E path = None
               ∧ Write_fault E path = Some (n, c) ∧ n < length (Body resp))
  ∨ (∃ resp, Get E url = Ok resp ∧ StatusCode resp = 200%Z
             ∧ Create_fault E path = None
             ∧ BodyErr resp = Some c).

(** A download in which nothing fails. *)
Definition download_clean (E : Env) (url path : string) : Prop :=
  ∃ resp, Get E url = Ok resp ∧ StatusCode resp = 200%Z
          ∧ Create_fault E path = None
          ∧ (∀ n c, Write_fault E path = Some (n, c) → (length (Body resp) ≤ n)%nat)
          ∧ BodyErr resp = None.

(** The failures under an error of [geoip2.Open file]. *)
Definition open_cause (E : Env) (fs : gmap string (list byte)) (file : string) (c : error)
  : Prop :=
  (fs !! file = None ∧ c = "open " ++ file ++ ": no such file or directory")
  ∨ (∃ content, fs !! file = Some content ∧ mmdb_decode E content = Err c).

(** [geoip2.Open file] succeeds with the database [db]. *)
Definition opens_as (E : Env) (fs : gmap string (list byte)) (file : string)
    (db : geoip2.Database) : Prop :=
  ∃ content, fs !! file = Some content ∧ mmdb_decode E content = Ok db.

(** The directory [NewIPInfo] works in: the one it is given, or
    [.zscan/geoip] under the home directory when it is given none. *)
Definition database_dir (E : Env) (dbDir dir : string) : Prop :=
  if decide (dbDir = "") then
    ∃ userHome, UserHomeDir E = Ok userHome
                ∧ dir = filepath_Join [userHome; ".zscan"; "geoip"]
  else dir = dbDir.

(** An error of construction with the failure under it: the message is
    the context the source puts first, then the message of the cause. *)
Definition construction_error_cause (E : Env) (dir0 : string) (w' : World) (e : error)
  : Prop :=
  (∃ c, dir0 = "" ∧ UserHomeDir E = Err c
        ∧ e = "failed to get user home directory: " ++ c ∧ ConfigError e = true)
  ∨ ∃ dir, database_dir E dir0 dir
      ∧ ((∃ c, MkdirAll E dir = Some c
               ∧ e = "failed to create database directory: " ++ c
               ∧ ConfigError e = true)
         ∨ (∃ c, download_cause E cityDBURL (cityDB_of dir) c
                 ∧ e = "failed to download city database: " ++ c
                 ∧ DownloadError e = true)
         ∨ (∃ c, download_cause E asnDBURL (asnDB_of dir) c
                 ∧ e = "failed to download ASN database: " ++ c
                 ∧ DownloadError e = true)
         ∨ (∃ c, open_cause E (files w') (cityDB_of dir) c
                 ∧ e = "failed to open city database: " ++ c
                 ∧ DatabaseOpenError e = true)
         ∨ (∃ c, open_cause E (files w') (asnDB_of dir) c
                 ∧ e = "failed to open ASN database: " ++ c
                 ∧ DatabaseOpenError e = true)).

(** An error of a lookup with the failure under it.  Under the
    invalid-address error there is no error of another call:
    [net.ParseIP] only returns nil. *)
Definition lookup_error_cause (E : Env) (i : IPInfo) (ip : string) (w : World) (e : error)
  : Prop :=
  (net_ParseIP E ip = None ∧ e = "invalid IP address" ∧ InvalidAddressError e = true)
  ∨ (∃ p c, net_ParseIP E ip = Some p
            ∧ city_answer (readers w) (cityReader i) p = Done (Err c)
            ∧ e = "failed to query city information: " ++ c
            ∧ CityLookupError e = true)
  ∨ (∃ p c, net_ParseIP E ip = Some p
            ∧ asn_answer (readers w) (asnReader i) p = Done (Err c)
            ∧ e = "failed to query ASN information: " ++ c
            ∧ ASNLookupError e = true).

(** A construction in which no call failed whose error the code reads: the
    directory was found and made, every fetch that was made went through,
    both files opened. *)
Definition construction_clean (E : Env) (dir0 : string) (w w' : World) (i : IPInfo)
  : Prop :=
  database_dir E dir0 (dbDir i)
  ∧ MkdirAll E (dbDir i) = None
  ∧ (∃ evs, trace w' = (trace w ++ evs)%list
            ∧ (cityDBURL ∈ fetches evs → download_clean E cityDBURL (cityDB_of (dbDir i)))
            ∧ (asnDBURL ∈ fetches evs → download_clean E asnDBURL (asnDB_of (dbDir i))))
  ∧ (∃ dbc dba, opens_as E (files w') (cityDB_of (dbDir i)) dbc
                ∧ opens_as E (files w') (asnDB_of (dbDir i)) dba).

(** A lookup in which no call failed: the address parsed and both readers
    answered. *)
Definition lookup_clean (E : Env) (i : IPInfo) (ip : string) (w : World) : Prop :=
  ∃ p city asn,
    net_ParseIP E ip = Some p
    ∧ city_answer (readers w) (cityReader i) p = Done (Ok city)
    ∧ asn_answer (readers w) (asnReader i) p = Done (Ok asn).

(** Two surroundings that differ only in what the code does not read:
    what [out.Close()] and [resp.Body.Close()] return, and which error
    [os.Stat] fails with when the error is not not-exist. *)
Definition discards_only (E E' : Env) : Prop :=
  net_ParseIP E = net_ParseIP E'
  ∧ UserHomeDir E = UserHomeDir E'
  ∧ MkdirAll E = MkdirAll E'
  ∧ Get E = Get E'
  ∧ Create_fault E = Create_fault E'
  ∧ Write_fault E = Write_fault E'
  ∧ mmdb_decode E = mmdb_decode E'
  ∧ ∀ path, Stat_fault E path = None ↔ Stat_fault E' path = None.

(** ** The fallback chain in the words of the specification *)

Definition resolve_spec (nameMap : gomap) (requestedLanguage : string) : string :=
  match nameMap with
  | None => ""
  | Some m =>
      if decide (m = ∅) then ""
      else if decide (is_Some (m !! requestedLanguage)) then default "" (m !! requestedLanguage)
      else if decide (is_Some (m !! "en")) then default "" (m !! "en")
      else ""
  end.

(** ** A test fixture: surroundings and databases to run the code on *)

Module Fixture.

Definition digit (c : ascii) : option N :=
  let n := N_of_ascii c in
  if ((48 <=? n) && (n <=? 57))%N then Some (n - 48)%N else None.

Fixpoint decimal (s : string) (acc : N) : option N :=
  match s with
  | EmptyString => Some acc
  | String c s' => d ← digit c; decimal s' (acc * 10 + d)%N
  end.

Fixpoint fields (s : string) : list string :=
  match s with
  | EmptyString => [""]
  | String c s' =>
      if Ascii.eqb c "."%char then "" :: fields s'
      else match fields s' with
           | x :: xs => String c x :: xs
           | [] => [String c ""]
           end
  end.

Definition octet (s : string) : option byte :=
  match s with
  | EmptyString => None
  | String c rest =>
      if Ascii.eqb c "0"%char && negb (String.eqb rest "") then None
      else if bool_decide (3 < String.length s) then None
      else n ← decimal s 0%N; Byte.of_N n
  end.

(** Dotted-quad IPv4 addresses, returned in the 16-byte form; it stands
    in for [net.ParseIP] on the addresses the examples use. *)
Definition ParseIP (s : string) : option IP :=
  match fields s with
  | [a; b; c; d] =>
      a ← octet a; b ← octet b; c ← octet c; d ← octet d;
      Some [x00; x00; x00; x00; x00; x00; x00; x00; x00; x00; xff; xff; a; b; c; d]
  | _ => None
  end.

Definition berlin : geoip2.City :=
  {| geoip2.City_ := {| geoip2.City_Names := Some {[ "en" := "Berlin" ]} |};
     geoip2.Postal_Code := "10115";
     geoip2.Continent :=
       {| geoip2.Continent_Names := Some {[ "en" := "Europe" ]};
          geoip2.Continent_Code := "EU" |};
     geoip2.Subdivisions :=
       [ {| geoip2.Names := Some {[ "en" := "Land Berlin"; "de" := "Berlin" ]};
            geoip2.IsoCode := "BE" |};
         {| geoip2.Names := Some {[ "en" := "Mitte" ]}; geoip2.IsoCode := "MI" |} ];
     geoip2.Country :=
       {| geoip2.Names := Some {[ "en" := "Germany"; "de" := "Deutschland" ]};
          geoip2.IsoCode := "DE" |};
     geoip2.Location :=
       {| geoip2.TimeZone := "Europe/Berlin";
          geoip2.Latitude := 52.5%float; geoip2.Longitude := 13.25%float;
          geoip2.AccuracyRadius := 20 |} |}.

(** What the reader leaves in the record for an address it has no data
    for. *)
Definition no_city : geoip2.City :=
  {| geoip2.City_ := {| geoip2.City_Names := None |};
     geoip2.Postal_Code := "";
     geoip2.Continent := {| geoip2.Continent_Names := None; geoip2.Continent_Code := "" |};
     geoip2.Subdivisions := [];
     geoip2.Country := {| geoip2.Names := None; geoip2.IsoCode := "" |};
     geoip2.Location :=
       {| geoip2.TimeZone := ""; geoip2.Latitude := 0%float; geoip2.Longitude := 0%float;
          geoip2.AccuracyRadius := 0 |} |}.

Definition test_ip : IP :=
  [x00; x00; x00; x00; x00; x00; x00; x00; x00; x00; xff; xff; xc0; x00; x02; x01].

Definition no_asn : geoip2.ASN :=
  {| geoip2.AutonomousSystemNumber := 0; geoip2.AutonomousSystemOrganization := "" |}.

Definition city_db : geoip2.Database :=
  {| geoip2.db_type := "GeoLite2-City";
     geoip2.has_City := true;
     geoip2.has_ASN := false;
     geoip2.db_City := λ ip, if decide (ip = test_ip) then Ok berlin else Ok no_city;
     geoip2.db_ASN := λ _, Ok no_asn;
     geoip2.db_Close := None |}.

Definition asn_db : geoip2.Database :=
  {| geoip2.db_type := "GeoLite2-ASN";
     geoip2.has_City := false;
     geoip2.has_ASN := true;
     geoip2.db_City := λ _, Ok no_city;
     geoip2.db_ASN := λ ip,
       if decide (ip = test_ip)
       then Ok {| geoip2.AutonomousSystemNumber := 64500;
                  geoip2.AutonomousSystemOrganization := "Example Net" |}
       else Ok no_asn;
     geoip2.db_Close := None |}.

(** The two database files of the fixture, byte for byte; anything else,
    a shorter file too, is no database. *)
Definition decode (content : list byte) : result geoip2.Database :=
  match content with
  | [x01; x2a] => Ok city_db
  | [x02; x2a] => Ok asn_db
  | _ => Err "error opening database: invalid MaxMind DB file"
  end.

Definition ok_response (body : list byte) : Response :=
  {| StatusCode := 200; Status := "200 OK"; Body := body; BodyErr := None |}.

Definition serve (city asn : result Response) (url : string) : result Response :=
  if decide (url = cityDBURL) then city
  else if decide (url = asnDBURL) then asn
  else Err ("Get " ++ url ++ ": no such host").

(** Surroundings in which everything works, but for what the server
    answers for the two URLs. *)
Definition env_serving (city asn : result Response) : Env :=
  {| net_ParseIP := ParseIP;
     UserHomeDir := Ok "/home/zscan";
     MkdirAll := λ _, None;
     Get := serve city asn;
     Stat_fault := λ _, None;
     Create_fault := λ _, None;
     Write_fault := λ _, None;
     File_Close_fault := λ _, None;
     Body_Close_fault := λ _, None;
     mmdb_decode := decode |}.

Definition env : Env :=
  env_serving (Ok (ok_response [x01; x2a])) (Ok (ok_response [x02; x2a])).

(** The server answers 204 for the city database. *)
Definition no_content : Response :=
  {| StatusCode := 204; Status := "204 No Content"; Body := []; BodyErr := None |}.
Definition env_204 : Env :=
  env_serving (Ok no_content) (Ok (ok_response [x02; x2a])).

(** The server answers 404 for the city database. *)
Definition not_found : Response :=
  {| StatusCode := 404; Status := "404 Not Found"; Body := []; BodyErr := None |}.
Definition env_404 : Env :=
  env_serving (Ok not_found) (Ok (ok_response [x02; x2a])).

(** The server answers 404 for the ASN database. *)
Definition env_asn_404 : Env :=
  env_serving (Ok (ok_response [x01; x2a])) (Ok not_found).

(** The server is not reachable. *)
Definition env_offline : Env :=
  env_serving (Err "dial tcp: connection refused") (Err "dial tcp: connection refused").

(** The file served as the ASN database is not a database. *)
Definition env_bad_asn : Env :=
  env_serving (Ok (ok_response [x01; x2a])) (Ok (ok_response [x00])).

Definition empty_world : World := {| files := ∅; readers := []; trace := [] |}.

Definition dir : string := "/var/lib/zscan".

Definition cityDB : string := cityDB_of dir.
Definition asnDB : string := asnDB_of dir.

(** Worlds in which the directory already holds one or both files. *)
Definition world_with_city : World :=
  {| files := {[ cityDB_of dir := [x01; x2a] ]}; readers := []; trace := [] |}.
Definition world_with_asn : World :=
  {| files := {[ asnDB_of dir := [x02; x2a] ]}; readers := []; trace := [] |}.
Definition world_with_both : World :=
  {| files := {[ cityDB_of dir := [x01; x2a]; asnDB_of dir := [x02; x2a] ]};
     readers := []; trace := [] |}.

(** [os.Stat] fails on the path of the city file, and not with not-exist. *)
Definition stat_error : error :=
  "stat /var/lib/zscan/GeoLite2-City.mmdb: input/output error".
Definition env_stat_fault (file : string) (err : error) : Env :=
  {| net_ParseIP := ParseIP;
     UserHomeDir := Ok "/home/zscan";
     MkdirAll := λ _, None;
     Get := serve (Ok (ok_response [x01; x2a])) (Ok (ok_response [x02; x2a]));
     Stat_fault := λ path, if decide (path = file) then Some err else None;
     Create_fault := λ _, None;
     Write_fault := λ _, None;
     File_Close_fault := λ _, None;
     Body_Close_fault := λ _, None;
     mmdb_decode := decode |}.
Definition env_stat_error : Env := env_stat_fault cityDB stat_error.

(** Closing the city file after the download fails. *)
Definition close_error : error :=
  "close /var/lib/zscan/GeoLite2-City.mmdb: input/output error".
Definition env_close_error : Env :=
  {| net_ParseIP := ParseIP;
     UserHomeDir := Ok "/home/zscan";
     MkdirAll := λ _, None;
     Get := serve (Ok (ok_response [x01; x2a])) (Ok (ok_response [x02; x2a]));
     Stat_fault := λ _, None;
     Create_fault := λ _, None;
     Write_fault := λ _, None;
     File_Close_fault := λ path, if decide (path = cityDB) then Some close_error else None;
     Body_Close_fault := λ _, None;
     mmdb_decode := decode |}.

(** A resolver over two open readers, as construction leaves it. *)
Definition resolver : IPInfo :=
  {| cityReader := Some 0; asnReader := Some 1; dbDir := dir |}.
Definition world_open : World :=
  {| files := files world_with_both;
     readers := [ {| rd_db := city_db; rd_open := true |};
                  {| rd_db := asn_db; rd_open := true |} ];
     trace := [] |}.

(** The same, with a city reader that cannot be closed cleanly. *)
Definition unmap_error : error := "munmap: invalid argument".
Definition city_db_unmap : geoip2.Database :=
  {| geoip2.db_type := geoip2.db_type city_db;
     geoip2.has_City := geoip2.has_City city_db;
     geoip2.has_ASN := geoip2.has_ASN city_db;
     geoip2.db_City := geoip2.db_City city_db;
     geoip2.db_ASN := geoip2.db_ASN city_db;
     geoip2.db_Close := Some unmap_error |}.
Definition world_open_unmap : World :=
  {| files := files world_with_both;
     readers := [ {| rd_db := city_db_unmap; rd_open := true |};
                  {| rd_db := asn_db; rd_open := true |} ];
     trace := [] |}.

(** A resolver that was never opened. *)
Definition unopened : IPInfo :=
  {| cityReader := None; asnReader := None; dbDir := dir |}.

(** The record expected for the test address. *)
Definition berlin_details : IPDetails :=
  {| Continent := "Europe"; ContinentCode := "EU";
     Country := "Germany"; CountryCode := "DE";
     Region := "Land Berlin"; RegionCode := "BE";
     City := "Berlin"; PostalCode := "10115";
     Latitude := 52.5%float; Longitude := 13.25%float;
     TimeZone := "Europe/Berlin";
     ASN := 64500; ASNOrg := "Example Net";
     ISP := ""; Domain := ""; NetworkType := "";
     IsAnonymous := false; IsAnonymousVPN := false; IsHosting := false;
     IsProxy := false; IsTorExitNode := false;
     AccuracyRadius := 20 |}.

Definition world_after_lookup : World :=
  log (EvASN 1 test_ip) (log (EvCity 0 test_ip) world_open).

End Fixture.

(** ** More ways to read the program *)

(** A reader after [Close]. *)
Definition shut (st : ReaderState) : ReaderState :=
  {| rd_db := rd_db st; rd_open := false |}.

(** The files opened as databases. *)
Definition opened (evs : list Event) : list string :=
  omap (λ ev, match ev with EvOpen file => Some file | _ => None end) evs.

(** The files created. *)
Definition created (evs : list Event) : list string :=
  omap (λ ev, match ev with EvCreate path => Some path | _ => None end) evs.

(** What [geoip2.Open] finds behind a path. *)
Definition load (E : Env) (fs : gmap string (list byte)) (file : string)
  : result geoip2.Database :=
  match fs !! file with
  | None => Err ("open " ++ file ++ ": no such file or directory")
  | Some content => mmdb_decode E content
  end.

(** The second half of [ensureDatabases], from the comment [// Open
    databases] on, as a computation of its own. *)
Definition open_databases (E : Env) (i : IPInfo) : M (option error * IPInfo) :=
  '(r, err) ← geoip2_Open E (cityDB_of (dbDir i));
  let i := with_cityReader i r in
  match err with
  | Some err => mret (Some ("failed to open city database: " ++ err), i)
  | None =>
      '(r, err) ← geoip2_Open E (asnDB_of (dbDir i));
      let i := with_asnReader i r in
      match err with
      | Some err =>
          Reader_Close (cityReader i);;
          mret (Some ("failed to open ASN database: " ++ err), i)
      | None => mret (None, i)
      end
  end.

(** A file name that [filepath.Clean] keeps as it is at the end of a path:
    one element, and neither empty nor a dot element. *)
Definition plain_name (name : string) : Prop :=
  elements_of name = [name] ∧ name ≠ "" ∧ name ≠ "." ∧ name ≠ "..".

(** Further cases to run the code on. *)
Module Cases.

(** A resolver whose city pointer is on the ASN reader. *)
Definition swapped : IPInfo :=
  {| cityReader := Some 1; asnReader := Some 0; dbDir := Fixture.dir |}.

(** The connection breaks while the body of the city database is read. *)
Definition cut_off : Response :=
  {| StatusCode := 200; Status := "200 OK"; Body := [x01];
     BodyErr := Some "unexpected EOF" |}.
Definition env_cut_off : Env :=
  Fixture.env_serving (Ok cut_off) (Ok (Fixture.ok_response [x02; x2a])).

(** The home directory is not known. *)
Definition env_no_home : Env :=
  {| net_ParseIP := Fixture.ParseIP;
     UserHomeDir := Err "$HOME is not defined";
     MkdirAll := λ _, None;
     Get := Fixture.serve (Err "dial tcp: connection refused")
              (Err "dial tcp: connection refused");
     Stat_fault := λ _, None;
     Create_fault := λ _, None;
     Write_fault := λ _, None;
     File_Close_fault := λ _, None;
     Body_Close_fault := λ _, None;
     mmdb_decode := Fixture.decode |}.

Definition city_error : error :=
  "geoip2: the City method does not support the GeoLite2-ASN database".

End Cases.

(** ** The plugin [plugins/hsguiserver.lua]

    The table [info] with the three fields the script reads or writes; [None]
    is Lua's [nil].  A table is passed by reference: when the script raises an
    error the caller still sees what was assigned before, so both outcomes
    carry the table. *)

Module Plugin.

Record Info := {
  Extra : option (gmap string string);
  Headers : option (gmap string string);
  Version : option string;
}.

Inductive Outcome :=
| Return (info : Info)
| Raise (msg : string) (info : Info).

Definition final (o : Outcome) : Info :=
  match o with
  | Return info => info
  | Raise _ info => info
  end.

(** [%d] *)
Definition is_digit (c : ascii) : bool :=
  Nat.leb 48 (nat_of_ascii c) && Nat.leb (nat_of_ascii c) 57.

(** The class [[%d%.]]. *)
Definition version_class (c : ascii) : bool :=
  is_digit c || Ascii.eqb c "."%char.

(** A literal piece of a pattern matched at the start of the subject: what
    follows it, when it is there. *)
Fixpoint literal (p s : string) : option string :=
  match p with
  | EmptyString => Some s
  | String a p' =>
      match s with
      | EmptyString => None
      | String b s' => if Ascii.eqb a b then literal p' s' else None
      end
  end.

(** A single-character class under [+] or [*] takes the longest run. *)
Fixpoint max_expand (class : ascii → bool) (s : string) : string :=
  match s with
  | EmptyString => ""
  | String c s' => if class c then String c (max_expand class s') else ""
  end.

(** The pattern [hsguiserver/([%d%.]+)] tried at the start of the subject:
    the capture, when it matches there. *)
Definition match_here (s : string) : option string :=
  match literal "hsguiserver/" s with
  | None => None
  | Some rest =>
      match max_expand version_class rest with
      | EmptyString => None
      | v => Some v
      end
  end.

(** [string.match(s, "hsguiserver/([%d%.]+)")]: the pattern is not anchored,
    so it is tried at every position from the left, and the first match
    gives the capture. *)
Fixpoint string_match (s : string) : option string :=
  match match_here s with
  | Some v => Some v
  | None =>
      match s with
      | EmptyString => None
      | String _ s' => string_match s'
      end
  end.

Definition with_Extra (info : Info) (extra : option (gmap string string)) : Info :=
  {| Extra := extra; Headers := Headers info; Version := Version info |}.
Definition with_Version (info : Info) (version : option string) : Info :=
  {| Extra := Extra info; Headers := Headers info; Version := version |}.

(** [function Analyze(info)] *)
Definition Analyze (info : Info) : Outcome :=
  (* info.Extra = info.Extra or {} *)
  let info := with_Extra info (Some (default ∅ (Extra info))) in
  (* local serverHeader = info.Headers["Server"] *)
  match Headers info with
  | None => Raise "attempt to index a nil value (field 'Headers')" info
  | Some headers =>
      match headers !! "Server" with
      | None => Return info
      | Some serverHeader =>
          Return (with_Version info (string_match serverHeader))
      end
  end.

(** The subject has the literal followed by a character of the class at
    this position. *)
Definition candidate (s : string) : Prop :=
  ∃ c rest, s = "hsguiserver/" ++ String c rest ∧ version_class c = true.

(** Every character of the string is in the class. *)
Fixpoint all_class (class : ascii → bool) (s : string) : bool :=
  match s with
  | EmptyString => true
  | String c s' => class c && all_class class s'
  end.

(** The string does not go on with a character of the class. *)
Definition ends_run (class : ascii → bool) (s : string) : bool :=
  match s with
  | EmptyString => true
  | String c _ => negb (class c)
  end.

(** The capture is that of the first place, from the left, where the
    pattern matches: the literal, then the longest run of the class, which
    is not empty. *)
Definition first_match (s v : string) : Prop :=
  ∃ pre rest,
    s = pre ++ "hsguiserver/" ++ v ++ rest
    ∧ v ≠ ""
    ∧ all_class version_class v = true
    ∧ ends_run version_class rest = true
    ∧ ∀ pre' t, s = pre' ++ t → String.length pre' < String.length pre → ¬ candidate t.

(** The pattern matches nowhere. *)
Definition no_match (s : string) : Prop :=
  ∀ pre t, s = pre ++ t → ¬ candidate t.

Definition sample : Info :=
  {| Extra := None;
     Headers := Some {[ "Server" := "hsguiserver/2.4.1 (embedded)";
                        "Content-Type" := "text/html" ]};
     Version := None |}.

Definition sample_other : Info :=
  {| Extra := Some {[ "seen" := "yes" ]};
     Headers := Some {[ "Server" := "nginx/1.25.3" ]};
     Version := Some "0.9" |}.

Definition sample_silent : Info :=
  {| Extra := None;
     Headers := Some {[ "Content-Type" := "text/html" ]};
     Version := Some "0.9" |}.

Definition sample_bare : Info :=
  {| Extra := None; Headers := None; Version := None |}.

End Plugin.

(** * Properties *)

(** ** Tools *)

(** Unfolds the monad of the embedding down to functions on worlds. *)
Ltac run :=
  unfold mbind, M_bind, mret, M_ret, panic, emit in *; simpl in *.

(** Two worlds that differ in how their traces are bracketed. *)
Ltac world_eq :=
  unfold log, set_files, set_readers; simpl; rewrite <-?app_assoc; simpl; reflexivity.

Lemma world_eta (w : World) :
  {| files := files w; readers := readers w; trace := trace w |} = w.
Proof. by destruct w. Qed.

Lemma prefix_app (p s : string) : String.prefix p (p ++ s) = true.
Proof.
  induction p as [|c p IH]; simpl.
  - by destruct s.
  - destruct (Ascii.ascii_dec c c); [exact IH | done].
Qed.

(** The paths the resolver works with. *)
Example filepath_Join_home :
  filepath_Join ["/home/zscan"; ".zscan"; "geoip"] = "/home/zscan/.zscan/geoip".
Proof. reflexivity. Qed.

Example filepath_Join_cleans :
  cityDB_of "data//geoip/../db/" = "data/db/GeoLite2-City.mmdb"
  ∧ asnDB_of "/" = "/GeoLite2-ASN.mmdb"
  ∧ asnDB_of "" = "GeoLite2-ASN.mmdb".
Proof. by vm_compute. Qed.

(** Each message built by the source is of the kind its text says. *)
Lemma ConfigError_home (c : error) :
  ConfigError ("failed to get user home directory: " ++ c) = true.
Proof. unfold ConfigError. by rewrite prefix_app. Qed.

Lemma ConfigError_mkdir (c : error) :
  ConfigError ("failed to create database directory: " ++ c) = true.
Proof.
  unfold ConfigError.
  by rewrite (prefix_app "failed to create database directory: "), orb_true_r.
Qed.

Lemma DownloadError_city (c : error) :
  DownloadError ("failed to download city database: " ++ c) = true.
Proof. unfold DownloadError. by rewrite prefix_app. Qed.

Lemma DownloadError_asn (c : error) :
  DownloadError ("failed to download ASN database: " ++ c) = true.
Proof.
  unfold DownloadError.
  by rewrite (prefix_app "failed to download ASN database: "), orb_true_r.
Qed.

Lemma DatabaseOpenError_city (c : error) :
  DatabaseOpenError ("failed to open city database: " ++ c) = true.
Proof. unfold DatabaseOpenError. by rewrite prefix_app. Qed.

Lemma DatabaseOpenError_asn (c : error) :
  DatabaseOpenError ("failed to open ASN database: " ++ c) = true.
Proof.
  unfold DatabaseOpenError.
  by rewrite (prefix_app "failed to open ASN database: "), orb_true_r.
Qed.

Lemma CityLookupError_query (c : error) :
  CityLookupError ("failed to query city information: " ++ c) = true.
Proof. apply prefix_app. Qed.

Lemma ASNLookupError_query (c : error) :
  ASNLookupError ("failed to query ASN information: " ++ c) = true.
Proof. apply prefix_app. Qed.

Create HintDb kinds.
#[global] Hint Resolve ConfigError_home ConfigError_mkdir DownloadError_city
  DownloadError_asn DatabaseOpenError_city DatabaseOpenError_asn
  CityLookupError_query ASNLookupError_query : kinds.

(** ** The locale resolver *)

Lemma getLocalizedName_nil (lang : string) : getLocalizedName None lang = "".
Proof. reflexivity. Qed.

Lemma getLocalizedName_lang (m : gmap string string) (lang name : string) :
  m !! lang = Some name → getLocalizedName (Some m) lang = name.
Proof. intros H. unfold getLocalizedName; simpl. by rewrite H. Qed.

Lemma getLocalizedName_en (m : gmap string string) (lang : string) :
  m !! lang = None → getLocalizedName (Some m) lang = default "" (m !! "en").
Proof.
  intros H. unfold getLocalizedName; simpl. rewrite H. by destruct (m !! "en").
Qed.

(** C4. [getLocalizedName] is total and implements the fallback chain of
    the specification: the empty string for an absent or empty map, else the
    value under the requested language, else the value under ["en"], else the
    empty string; with the three examples of the specification. *)
Theorem getLocalizedName_fallback_chain :
  (∀ (names : gomap) (lang : string),
      getLocalizedName names lang = resolve_spec names lang)
  ∧ getLocalizedName (Some {[ "en" := "Germany"; "de" := "Deutschland" ]}) "fr" = "Germany"
  ∧ getLocalizedName (Some ∅) "en" = ""
  ∧ getLocalizedName None "en" = "".
Proof.
  split; [|by vm_compute].
  intros [m|] lang; [|done].
  unfold resolve_spec. destruct (decide (m = ∅)) as [Hm|Hm].
  - subst m. rewrite getLocalizedName_en by apply lookup_empty.
    by rewrite lookup_empty.
  - destruct (m !! lang) as [name|] eqn:Hl.
    + rewrite (getLocalizedName_lang _ _ _ Hl).
      destruct (decide _) as [_|Hs]; [done | destruct Hs; eauto].
    + rewrite (getLocalizedName_en _ _ Hl).
      destruct (decide _) as [Hs|_]; [by destruct Hs |].
      by destruct (m !! "en") as [name|] eqn:He.
Qed.

(** ** Lookups *)

Section Lookup.

Variable E : Env.

Lemma Reader_City_run (r : Reader) (ip : IP) (w : World) :
  Reader_City r ip w =
    match city_answer (readers w) r ip, r with
    | Done a, Some h => (Done a, log (EvCity h ip) w)
    | _, _ => (Panic, w)
    end.
Proof.
  unfold Reader_City, city_answer, deref; run.
  destruct r as [h|]; [|done]. by destruct (readers w !! h).
Qed.

Lemma Reader_ASN_run (r : Reader) (ip : IP) (w : World) :
  Reader_ASN r ip w =
    match asn_answer (readers w) r ip, r with
    | Done a, Some h => (Done a, log (EvASN h ip) w)
    | _, _ => (Panic, w)
    end.
Proof.
  unfold Reader_ASN, asn_answer, deref; run.
  destruct r as [h|]; [|done]. by destruct (readers w !! h).
Qed.

(** A lookup that returns a record went through both readers. *)
Lemma GetIPInfo_Ok_inv (i : IPInfo) (ip : string) (w w' : World) (d : IPDetails) :
  GetIPInfo E i ip w = (Done (Ok d), w') →
  ∃ parsedIP hc ha city asn,
    net_ParseIP E ip = Some parsedIP
    ∧ cityReader i = Some hc ∧ asnReader i = Some ha
    ∧ city_answer (readers w) (cityReader i) parsedIP = Done (Ok city)
    ∧ asn_answer (readers w) (asnReader i) parsedIP = Done (Ok asn)
    ∧ d = compose_details city asn
    ∧ w' = log (EvASN ha parsedIP) (log (EvCity hc parsedIP) w).
Proof.
  unfold GetIPInfo. destruct (net_ParseIP E ip) as [p|]; [|by run].
  run. rewrite Reader_City_run.
  destruct (city_answer (readers w) (cityReader i) p) as [[city|e]|] eqn:Hc;
    destruct (cityReader i) as [hc|] eqn:Hrc; try done.
  rewrite Reader_ASN_run. simpl.
  destruct (asn_answer (readers w) (asnReader i) p) as [[asn|e]|] eqn:Ha;
    destruct (asnReader i) as [ha|] eqn:Hra; try done.
  intros [= <- <-]. by exists p, hc, ha, city, asn.
Qed.

(** The result of a lookup is a function of the readers alone, and the
    lookup leaves them and the files as they are. *)
Lemma GetIPInfo_frame (i : IPInfo) (ip : string) (w : World) :
  readers (GetIPInfo E i ip w).2 = readers w
  ∧ files (GetIPInfo E i ip w).2 = files w.
Proof.
  unfold GetIPInfo. destruct (net_ParseIP E ip) as [p|]; [|by run].
  run. rewrite Reader_City_run.
  destruct (city_answer (readers w) (cityReader i) p) as [[city|e]|];
    destruct (cityReader i) as [hc|]; try done.
  rewrite Reader_ASN_run. simpl.
  by destruct (asn_answer (readers w) (asnReader i) p) as [[asn|e]|];
    destruct (asnReader i) as [ha|].
Qed.

Lemma GetIPInfo_readers_only (i : IPInfo) (ip : string) (w1 w2 : World) :
  readers w1 = readers w2 →
  (GetIPInfo E i ip w1).1 = (GetIPInfo E i ip w2).1.
Proof.
  intros Hr. unfold GetIPInfo. destruct (net_ParseIP E ip) as [p|]; [|by run].
  run. rewrite !Reader_City_run, Hr.
  destruct (city_answer (readers w2) (cityReader i) p) as [[city|e]|];
    destruct (cityReader i) as [hc|]; try done.
  rewrite !Reader_ASN_run. simpl. rewrite Hr.
  by destruct (asn_answer (readers w2) (asnReader i) p) as [[asn|e]|];
    destruct (asnReader i) as [ha|].
Qed.

(** C1. An address string that does not parse makes [GetIPInfo] fail with
    the invalid-address error, and the world after the call is the world
    before it: no reader was queried, nothing was recorded. *)
Theorem GetIPInfo_invalid_address (i : IPInfo) (ip : string) (w : World) :
  net_ParseIP E ip = None →
  ∃ e w', GetIPInfo E i ip w = (Done (Err e), w')
          ∧ InvalidAddressError e = true
          ∧ w' = w
          ∧ queried (trace w') = queried (trace w).
Proof.
  intros Hp. exists "invalid IP address", w.
  unfold GetIPInfo. rewrite Hp. by run.
Qed.

(** C6. A record returned by [GetIPInfo] has empty ISP, domain and network
    type, and all five risk flags false. *)
Theorem GetIPInfo_unpopulated_fields
    (i : IPInfo) (ip : string) (w w' : World) (d : IPDetails) :
  GetIPInfo E i ip w = (Done (Ok d), w') →
  ISP d = "" ∧ Domain d = "" ∧ NetworkType d = ""
  ∧ IsAnonymous d = false ∧ IsAnonymousVPN d = false ∧ IsHosting d = false
  ∧ IsProxy d = false ∧ IsTorExitNode d = false.
Proof.
  intros (p & hc & ha & city & asn & _ & _ & _ & _ & _ & -> & _)%GetIPInfo_Ok_inv.
  unfold compose_details. by destruct (geoip2.Subdivisions city).
Qed.

(** C7. In a record returned by [GetIPInfo], the region and its code come
    from the first subdivision of the city reader's answer, and both are
    empty when the answer has no subdivision. *)
Theorem GetIPInfo_region
    (i : IPInfo) (ip : string) (w w' : World) (d : IPDetails) :
  GetIPInfo E i ip w = (Done (Ok d), w') →
  ∃ parsedIP city,
    net_ParseIP E ip = Some parsedIP
    ∧ city_answer (readers w) (cityReader i) parsedIP = Done (Ok city)
    ∧ match geoip2.Subdivisions city with
      | s0 :: _ =>
          Region d = getLocalizedName (geoip2.Names s0) "en"
          ∧ RegionCode d = geoip2.IsoCode s0
      | [] => Region d = "" ∧ RegionCode d = ""
      end.
Proof.
  intros (p & hc & ha & city & asn & Hp & _ & _ & Hc & _ & -> & _)%GetIPInfo_Ok_inv.
  exists p, city. split; [done|]. split; [done|].
  unfold compose_details. by destruct (geoip2.Subdivisions city).
Qed.

(** C9. [GetIPInfo] is deterministic: over the same readers (the same
    database contents) the same address string gives the same record or the
    same error, whatever else differs in the world; and since a lookup
    leaves the readers as they are, a second call repeats the outcome of
    the first. *)
Theorem GetIPInfo_deterministic (i : IPInfo) (ip : string) (w1 w2 : World) :
  readers w1 = readers w2 →
  (GetIPInfo E i ip w1).1 = (GetIPInfo E i ip w2).1
  ∧ (GetIPInfo E i ip (GetIPInfo E i ip w1).2).1 = (GetIPInfo E i ip w1).1.
Proof.
  intros Hr. split; [by apply GetIPInfo_readers_only|].
  apply GetIPInfo_readers_only, GetIPInfo_frame.
Qed.

End Lookup.

(** ** Closing *)

Lemma Reader_Close_run (r : Reader) (w : World) :
  r ≠ None → valid_reader w r →
  Reader_Close r w =
    (Done (close_answer (readers w) r),
     {| files := files w; readers := close_in r (readers w);
        trace := (trace w ++ close_event r)%list |}).
Proof.
  destruct r as [h|]; [|done]. intros _ Hv; simpl in Hv.
  apply lookup_lt_is_Some in Hv as [st Hst].
  unfold Reader_Close, deref, mark_closed, close_in; run. by rewrite Hst.
Qed.

Lemma close_in_length (r : Reader) (rs : list ReaderState) :
  length (close_in r rs) = length rs.
Proof.
  destruct r as [h|]; [|done]. simpl.
  destruct (rs !! h); [apply length_insert | done].
Qed.

(** C10. [Close] closes exactly the readers whose pointers are not nil, the
    city reader first, and returns without a panic; on a resolver whose two
    pointers are nil it does nothing at all. *)
Theorem Close_safe (i : IPInfo) (w : World) :
  valid_reader w (cityReader i) → valid_reader w (asnReader i) →
  Close i w =
    (Done tt,
     {| files := files w;
        readers := close_in (asnReader i) (close_in (cityReader i) (readers w));
        trace := (trace w ++ close_event (cityReader i) ++ close_event (asnReader i))%list |})
  ∧ closed (close_event (cityReader i) ++ close_event (asnReader i))
    = (option_list (cityReader i) ++ option_list (asnReader i))%list
  ∧ (cityReader i = None → asnReader i = None → Close i w = (Done tt, w)).
Proof.
  intros Hc Ha. unfold Close. split; [|split].
  - destruct (cityReader i) as [hc|] eqn:Hrc; destruct (asnReader i) as [ha|] eqn:Hra;
      run; rewrite ?Reader_Close_run by done; simpl.
    + rewrite Reader_Close_run; [| done |].
      * simpl. by rewrite <-app_assoc.
      * simpl in *. by destruct (readers w !! hc); rewrite ?length_insert.
    + done.
    + done.
    + by rewrite ?app_nil_r, world_eta.
  - by destruct (cityReader i), (asnReader i).
  - intros -> ->. by run.
Qed.

(** ** Provisioning *)

Section Provisioning.

Variable E : Env.

(** [downloadFile], call by call. *)
Lemma downloadFile_run (url path : string) (w : World) :
  downloadFile E url path w =
    let w1 := log (EvHttpGet url) w in
    match Get E url with
    | Err err => (Done (Some err), w1)
    | Ok resp =>
        if bool_decide (StatusCode resp ≠ 200%Z)
        then (Done (Some ("bad status: " ++ Status resp)), w1)
        else
          match Create_fault E path with
          | Some err => (Done (Some err), log (EvCreate path) w1)
          | None =>
              io_Copy E path resp
                (log (EvCreate path) (set_files (<[path := []]> (files w1)) w1))
          end
    end.
Proof.
  unfold downloadFile, http_Get, os_Create, File_Close, Body_Close; run.
  destruct (Get E url) as [resp|err]; [|done].
  case_bool_decide; [done|]. destruct (Create_fault E path); [done|].
  unfold io_Copy; simpl. destruct (Write_fault E path) as [[n c]|]; [|done].
  by case_bool_decide.
Qed.

(** What [io.Copy] leaves in a file that [os.Create] just emptied. *)
Lemma io_Copy_run (path : string) (resp : Response) (w : World) :
  files w !! path = Some [] →
  ∃ err written,
    io_Copy E path resp w = (Done err, set_files (<[path := written]> (files w)) w)
    ∧ ((err = BodyErr resp ∧ written = Body resp
        ∧ ∀ n c, Write_fault E path = Some (n, c) → (length (Body resp) ≤ n)%nat)
       ∨ (∃ n c, err = Some c ∧ Write_fault E path = Some (n, c)
                 ∧ n < length (Body resp) ∧ written = take n (Body resp))).
Proof.
  intros Hf. unfold io_Copy. rewrite Hf. simpl.
  destruct (Write_fault E path) as [[n c]|] eqn:Hw.
  - case_bool_decide as Hn.
    + exists (Some c), (take n (Body resp)). split; [done|]. right. by exists n, c.
    + exists (BodyErr resp), (Body resp). split; [done|]. left.
      split; [done|]. split; [done|]. intros ? ? [= <- <-]. lia.
  - exists (BodyErr resp), (Body resp). split; [done|]. left. by repeat split.
Qed.

(** [downloadFile] makes one request, touches no file but its destination
    and no reader, and fails exactly with a cause. *)
Lemma downloadFile_spec (url path : string) (w : World) :
  ∃ err fs evs,
    downloadFile E url path w =
      (Done err, {| files := fs; readers := readers w; trace := (trace w ++ evs)%list |})
    ∧ fetches evs = [url] ∧ closed evs = [] ∧ queried evs = []
    ∧ (∀ q, q ≠ path → fs !! q = files w !! q)
    ∧ match err with
      | Some c => download_cause E url path c
      | None =>
          download_clean E url path
          ∧ ∃ resp, Get E url = Ok resp ∧ fs !! path = Some (Body resp)
      end.
Proof.
  rewrite downloadFile_run. unfold download_cause, download_clean. simpl.
  destruct (Get E url) as [resp|err] eqn:Hg.
  2: { exists (Some err), (files w), [EvHttpGet url]. repeat split; auto. }
  case_bool_decide as Hs.
  { exists (Some ("bad status: " ++ Status resp)), (files w), [EvHttpGet url].
    repeat split; eauto 10. }
  destruct (Create_fault E path) as [err|] eqn:Hc.
  { exists (Some err), (files w), [EvHttpGet url; EvCreate path].
    split; [by unfold log; simpl; rewrite <-app_assoc|]. repeat split; eauto 10. }
  edestruct (io_Copy_run path resp) as (err & written & -> & Hcopy);
    [by apply lookup_insert_eq|].
  exists err, (<[path := written]> (files w)), [EvHttpGet url; EvCreate path].
  split; [by unfold log, set_files; simpl; rewrite <-app_assoc, insert_insert_eq|].
  do 3 (split; [done|]).
  split; [by intros q Hq; rewrite lookup_insert_ne|].
  destruct Hcopy as [(-> & -> & Hw)|(n & c & -> & Hw & Hn & ->)].
  - destruct (BodyErr resp) as [c|] eqn:Hb.
    + do 4 right. by exists resp.
    + split; [by exists resp|]. exists resp. by rewrite lookup_insert_eq.
  - do 3 right. left. by exists resp, n.
Qed.

(** [os.Stat] says not-exist only of a path without a file, and always of
    such a path unless it fails in another way. *)
Lemma missing_absent (fs : gmap string (list byte)) (path : string) :
  missing E fs path = true → fs !! path = None.
Proof.
  unfold missing, os_Stat.
  by destruct (Stat_fault E path), (fs !! path).
Qed.

Lemma missing_iff (fs : gmap string (list byte)) (path : string) :
  missing E fs path = true ↔ Stat_fault E path = None ∧ fs !! path = None.
Proof.
  unfold missing, os_Stat.
  destruct (Stat_fault E path), (fs !! path); simpl; split; try done; by intros [? ?].
Qed.

Lemma missing_present (fs : gmap string (list byte)) (path : string) :
  fs !! path ≠ None → missing E fs path = false.
Proof.
  intros Hp. destruct (missing E fs path) eqn:Hm; [|done].
  by apply missing_absent in Hm.
Qed.

(** The same for a download that is made only when [os.Stat] says that
    the file is not there; files that exist are left as they are. *)
Lemma download_if_missing_spec (url path : string) (w : World) :
  ∃ err fs evs,
    download_if_missing E url path w =
      (Done err, {| files := fs; readers := readers w; trace := (trace w ++ evs)%list |})
    ∧ fetches evs = (if missing E (files w) path then [url] else [])
    ∧ closed evs = [] ∧ queried evs = []
    ∧ (∀ q, files w !! q ≠ None → fs !! q = files w !! q)
    ∧ (∀ q, q ≠ path → fs !! q = files w !! q)
    ∧ (missing E (files w) path = false → fs = files w)
    ∧ match err with
      | Some c => missing E (files w) path = true ∧ download_cause E url path c
      | None =>
          missing E (files w) path = true
          → download_clean E url path ∧ fs !! path ≠ None
      end.
Proof.
  unfold download_if_missing, Stat_IsNotExist; run.
  fold (missing E (files w) path).
  destruct (missing E (files w) path) eqn:Hm.
  - destruct (downloadFile_spec url path (log (EvStat path) w))
      as (err & fs & evs & -> & Hf & Hc & Hq & Hfr & Herr).
    exists err, fs, (EvStat path :: evs).
    split; [by simpl; rewrite <-app_assoc|]. do 3 (split; [done|]).
    split; [intros q Hq'; apply Hfr; intros ->; by apply missing_absent in Hm|].
    split; [done|]. split; [done|].
    destruct err as [c|]; [done|].
    destruct Herr as (Hclean & resp & _ & ->). done.
  - exists None, (files w), [EvStat path]. by repeat split.
Qed.

Lemma close_in_last (rs : list ReaderState) (st : ReaderState) :
  close_in (Some (length rs)) (rs ++ [st])
  = (rs ++ [{| rd_db := rd_db st; rd_open := false |}])%list.
Proof.
  unfold close_in. rewrite list_lookup_middle by done.
  replace (length rs) with (length rs + 0) at 1 by lia.
  by rewrite insert_app_r.
Qed.

(** [ensureDatabases] ends in one of five ways: a download of the city
    file or of the ASN file failed, the city file or the ASN file did not
    open, or both readers are open. *)
Lemma ensureDatabases_spec (i : IPInfo) (w : World) :
  let cityDB := cityDB_of (dbDir i) in
  let asnDB := asnDB_of (dbDir i) in
  let hc := length (readers w) in
  ∃ err i' fs rs evs,
    ensureDatabases E i w =
      (Done (err, i'), {| files := fs; readers := rs; trace := (trace w ++ evs)%list |})
    ∧ (∀ q, files w !! q ≠ None → fs !! q = files w !! q)
    ∧ (∀ q, q ≠ cityDB → q ≠ asnDB → fs !! q = files w !! q)
    ∧ queried evs = []
    ∧ (∃ evs1 evs2 evs3,
          evs = (evs1 ++ evs2 ++ evs3)%list ∧ fetches evs3 = []
          ∧ fetches evs1 = (if missing E (files w) cityDB then [cityDBURL] else [])
          ∧ (fetches evs2 = [] ∨ fetches evs2 = [asnDBURL])
          ∧ (missing E (files w) asnDB = false → fetches evs2 = [])
          ∧ (missing E (files w) cityDB = false → missing E (files w) asnDB = true
             → fetches evs2 = [asnDBURL])
          ∧ (err = None → fetches evs1 ≠ [] → download_clean E cityDBURL cityDB)
          ∧ (err = None → fetches evs2 ≠ [] → download_clean E asnDBURL asnDB))
    ∧ ((∃ c, err = Some ("failed to download city database: " ++ c)
             ∧ download_cause E cityDBURL cityDB c
             ∧ closed evs = [] ∧ rs = readers w ∧ i' = i)
       ∨ (∃ c, err = Some ("failed to download ASN database: " ++ c)
               ∧ download_cause E asnDBURL asnDB c
               ∧ closed evs = [] ∧ rs = readers w ∧ i' = i)
       ∨ (∃ c, err = Some ("failed to open city database: " ++ c)
               ∧ open_cause E fs cityDB c
               ∧ closed evs = [] ∧ rs = readers w ∧ i' = with_cityReader i None)
       ∨ (∃ c dbc, err = Some ("failed to open ASN database: " ++ c)
                   ∧ opens_as E fs cityDB dbc ∧ open_cause E fs asnDB c
                   ∧ closed evs = [hc]
                   ∧ rs = (readers w ++ [{| rd_db := dbc; rd_open := false |}])%list
                   ∧ i' = with_asnReader (with_cityReader i (Some hc)) None)
       ∨ (∃ dbc dba, err = None
                     ∧ opens_as E fs cityDB dbc ∧ opens_as E fs asnDB dba
                     ∧ closed evs = []
                     ∧ rs = (readers w ++ [{| rd_db := dbc; rd_open := true |};
                                           {| rd_db := dba; rd_open := true |}])%list
                     ∧ i' = with_asnReader (with_cityReader i (Some hc)) (Some (S hc)))).
Proof.
  intros cityDB asnDB hc.
  destruct (download_if_missing_spec cityDBURL cityDB w)
    as (e1 & fs1 & evs1 & Hrun1 & Hf1 & Hc1 & Hq1 & Hfr1 & Hot1 & Hsame1 & He1).
  unfold ensureDatabases. fold cityDB asnDB. run. rewrite Hrun1.
  destruct e1 as [c|].
  { destruct He1 as [Hm Hcause].
    exists (Some ("failed to download city database: " ++ c)), i, fs1, (readers w), evs1.
    split; [done|]. split; [done|]. split; [by intros q Hq _; apply Hot1|].
    split; [done|]. split.
    - exists evs1, [], []. rewrite app_nil_r.
      repeat split; auto; first [done | congruence].
    - left. by exists c. }
  rename He1 into Hclean1.
  set (w1 := {| files := fs1; readers := readers w; trace := (trace w ++ evs1)%list |}).
  destruct (download_if_missing_spec asnDBURL asnDB w1)
    as (e2 & fs2 & evs2 & Hrun2 & Hf2 & Hc2 & Hq2 & Hfr2 & Hot2 & Hsame2 & He2).
  rewrite Hrun2. simpl in *.
  assert (Hfr : ∀ q, files w !! q ≠ None → fs2 !! q = files w !! q).
  { intros q Hq. rewrite Hfr2; rewrite Hfr1; done. }
  assert (Hot : ∀ q, q ≠ cityDB → q ≠ asnDB → fs2 !! q = files w !! q).
  { intros q Hq Hq'. rewrite Hot2 by done. by apply Hot1. }
  assert (Hfetch2 : (fetches evs2 = [] ∨ fetches evs2 = [asnDBURL])
            ∧ (missing E (files w) asnDB = false → fetches evs2 = [])
            ∧ (missing E (files w) cityDB = false → missing E (files w) asnDB = true
               → fetches evs2 = [asnDBURL])).
  { rewrite Hf2. split; [destruct (missing E fs1 asnDB); auto|]. split.
    - intros Hp. destruct (missing E fs1 asnDB) eqn:Hm; [|done].
      apply missing_iff in Hm as [Hs Hm].
      destruct (files w !! asnDB) eqn:Hl.
      + rewrite Hfr1 in Hm by congruence. congruence.
      + assert (missing E (files w) asnDB = true) by (by apply missing_iff).
        congruence.
    - (* no fetch was made, so the files are those of [w] *)
      intros Hp Hm. rewrite (Hsame1 Hp). by rewrite Hm. }
  destruct Hfetch2 as (Hfa & Hfb & Hfc).
  destruct e2 as [c|].
  { destruct He2 as [Hm Hcause].
    exists (Some ("failed to download ASN database: " ++ c)), i, fs2, (readers w),
      (evs1 ++ evs2)%list.
    split; [by rewrite app_assoc|]. split; [done|]. split; [done|].
    split; [by unfold queried in *; rewrite omap_app, Hq1, Hq2|]. split.
    - exists evs1, evs2, []. rewrite app_nil_r. repeat split; auto; done.
    - right; left. exists c. repeat split; auto.
      by unfold closed in *; rewrite omap_app, Hc1, Hc2. }
  rename He2 into Hclean2.
  assert (Hclean : (fetches evs1 ≠ [] → download_clean E cityDBURL cityDB)
                   ∧ (fetches evs2 ≠ [] → download_clean E asnDBURL asnDB)).
  { split; intros Hne.
    - apply Hclean1. destruct (missing E (files w) cityDB); [done|].
      by rewrite Hf1 in Hne.
    - apply Hclean2. destruct (missing E fs1 asnDB); [done|].
      by rewrite Hf2 in Hne. }
  destruct Hclean as [Hcl1 Hcl2].
  assert (Hq12 : queried (evs1 ++ evs2) = [])
    by (by unfold queried in *; rewrite omap_app, Hq1, Hq2).
  assert (Hc12 : closed (evs1 ++ evs2) = [])
    by (by unfold closed in *; rewrite omap_app, Hc1, Hc2).
  unfold geoip2_Open at 1. simpl.
  destruct (fs2 !! cityDB) as [content|] eqn:Hcity; simpl.
  2: { eexists _, _, fs2, (readers w), (evs1 ++ evs2 ++ [EvOpen cityDB])%list.
       split; [world_eq|]. split; [done|]. split; [done|].
       split; [by unfold queried in *; rewrite !omap_app, Hq1, Hq2|]. split.
       - exists evs1, evs2, [EvOpen cityDB]. repeat split; auto; done.
       - do 2 right; left. eexists. split; [done|]. split; [by left|].
         split; [|done]. by unfold closed in *; rewrite !omap_app, Hc1, Hc2. }
  destruct (mmdb_decode E content) as [dbc|c] eqn:Hdc; simpl.
  2: { eexists _, _, fs2, (readers w), (evs1 ++ evs2 ++ [EvOpen cityDB])%list.
       split; [world_eq|]. split; [done|]. split; [done|].
       split; [by unfold queried in *; rewrite !omap_app, Hq1, Hq2|]. split.
       - exists evs1, evs2, [EvOpen cityDB]. repeat split; auto; done.
       - do 2 right; left. exists c. split; [done|]. split; [right; eauto|].
         split; [|done]. by unfold closed in *; rewrite !omap_app, Hc1, Hc2. }
  unfold geoip2_Open. simpl.
  destruct (fs2 !! asnDB) as [content'|] eqn:Hasn; simpl.
  2: { rewrite Reader_Close_run; [|done|by simpl; rewrite length_app; simpl; lia].
       unfold log, set_readers; cbn [readers files trace]. rewrite close_in_last. simpl.
       eexists _, _, fs2, _, (evs1 ++ evs2 ++ [EvOpen cityDB; EvOpen asnDB; EvReaderClose hc])%list.
       split; [world_eq|]. split; [done|]. split; [done|].
       split; [by unfold queried in *; rewrite !omap_app, Hq1, Hq2|]. split.
       - exists evs1, evs2, [EvOpen cityDB; EvOpen asnDB; EvReaderClose hc].
         repeat split; auto; done.
       - do 3 right; left. eexists _, dbc. split; [done|].
         split; [by exists content|]. split; [by left|].
         split; [|done]. by unfold closed in *; rewrite !omap_app, Hc1, Hc2. }
  destruct (mmdb_decode E content') as [dba|c] eqn:Hda; simpl.
  2: { rewrite Reader_Close_run; [|done|by simpl; rewrite length_app; simpl; lia].
       unfold log, set_readers; cbn [readers files trace]. rewrite close_in_last. simpl.
       eexists _, _, fs2, _, (evs1 ++ evs2 ++ [EvOpen cityDB; EvOpen asnDB; EvReaderClose hc])%list.
       split; [world_eq|]. split; [done|]. split; [done|].
       split; [by unfold queried in *; rewrite !omap_app, Hq1, Hq2|]. split.
       - exists evs1, evs2, [EvOpen cityDB; EvOpen asnDB; EvReaderClose hc].
         repeat split; auto; done.
       - do 3 right; left. exists c, dbc. split; [done|].
         split; [by exists content|]. split; [right; eauto|].
         split; [|done]. by unfold closed in *; rewrite !omap_app, Hc1, Hc2. }
  eexists None, _, fs2, _, (evs1 ++ evs2 ++ [EvOpen cityDB; EvOpen asnDB])%list.
  split; [world_eq|]. split; [done|]. split; [done|].
  split; [by unfold queried in *; rewrite !omap_app, Hq1, Hq2|]. split.
  - exists evs1, evs2, [EvOpen cityDB; EvOpen asnDB]. repeat split; auto; done.
  - do 4 right. exists dbc, dba. split; [done|].
    split; [by exists content|]. split; [by exists content'|].
    split; [by unfold closed in *; rewrite !omap_app, Hc1, Hc2|].
    split; [done|]. rewrite length_app; simpl. unfold hc.
    by replace (length (readers w) + 1) with (S (length (readers w))) by lia.
Qed.

End Provisioning.

(** ** Construction *)

Section Construction.

Variable E : Env.

Lemma is_open_app_closed (w w' : World) (st : ReaderState) (r : Reader) :
  readers w' = (readers w ++ [st])%list → rd_open st = false →
  is_open w' r = is_open w r.
Proof.
  intros Hr Hst. destruct r as [h|]; [|done]. simpl. rewrite Hr.
  destruct (decide (h < length (readers w))) as [Hlt|Hge].
  - by rewrite lookup_app_l.
  - rewrite (lookup_ge_None_2 (readers w)) by lia.
    rewrite lookup_app_r by lia.
    destruct (h - length (readers w)) as [|k]; simpl; [by rewrite Hst | done].
Qed.

Lemma open_readers_app_closed (w w' : World) (st : ReaderState) :
  readers w' = (readers w ++ [st])%list → rd_open st = false →
  open_readers w' = open_readers w.
Proof.
  intros Hr Hst. unfold open_readers.
  replace (length (readers w')) with (S (length (readers w)))
    by (rewrite Hr, length_app; simpl; lia).
  rewrite seq_S, filter_app.
  rewrite (list_filter_iff _ (λ h, is_open w (Some h) = true)).
  2: { intros h. by rewrite (is_open_app_closed w w' st). }
  rewrite filter_cons_False, filter_nil, app_nil_r; [done|].
  rewrite (is_open_app_closed w w' st) by done. simpl.
  by rewrite lookup_ge_None_2.
Qed.

Lemma open_readers_same (w w' : World) :
  readers w' = readers w → open_readers w' = open_readers w.
Proof.
  intros Hr. unfold open_readers. rewrite Hr.
  apply list_filter_iff. intros h. simpl. by rewrite Hr.
Qed.

Lemma NewIPInfo_run (dbDir : string) (w : World) :
  NewIPInfo E dbDir w =
    match (if decide (dbDir = "") then
             match UserHomeDir E with
             | Err err => Err ("failed to get user home directory: " ++ err)
             | Ok userHome => Ok (filepath_Join [userHome; ".zscan"; "geoip"])
             end
           else Ok dbDir) with
    | Err err => (Done (Err err), w)
    | Ok dir =>
        let w1 := log (EvMkdirAll dir) w in
        match MkdirAll E dir with
        | Some err => (Done (Err ("failed to create database directory: " ++ err)), w1)
        | None =>
            match ensureDatabases E
                    {| cityReader := None; asnReader := None; dbDir := dir |} w1 with
            | (Done (Some err, _), w') => (Done (Err err), w')
            | (Done (None, i), w') => (Done (Ok i), w')
            | (Panic, w') => (Panic, w')
            end
        end
    end.
Proof.
  unfold NewIPInfo, os_MkdirAll.
  destruct (decide (dbDir = "")); [destruct (UserHomeDir E)|]; run; try done.
  - destruct (MkdirAll E _); [done|].
    by destruct (ensureDatabases _ _ _) as [[[[?|] ?]|] ?].
  - destruct (MkdirAll E _); [done|].
    by destruct (ensureDatabases _ _ _) as [[[[?|] ?]|] ?].
Qed.

(** After [ensureDatabases] on a resolver without readers, both readers
    are open or none is. *)
Lemma ensureDatabases_all_or_nothing (i : IPInfo) (w : World) :
  cityReader i = None → asnReader i = None →
  ∃ err i' w' evs,
    ensureDatabases E i w = (Done (err, i'), w')
    ∧ trace w' = (trace w ++ evs)%list
    ∧ match err with
      | None =>
          is_open w' (cityReader i') = true ∧ is_open w' (asnReader i') = true
      | Some e =>
          is_open w' (cityReader i') = false ∧ is_open w' (asnReader i') = false
          ∧ open_readers w' = open_readers w
          ∧ closed evs = option_list (cityReader i')
          ∧ (cityReader i' ≠ None → DatabaseOpenError e = true)
      end.
Proof.
  intros Hci Hai.
  destruct (ensureDatabases_spec E i w)
    as (err & i' & fs & rs & evs & Hrun & _ & _ & _ & _ & Hout).
  eexists err, i', _, evs. split; [exact Hrun|]. split; [done|].
  destruct Hout as [(c & -> & _ & Hcl & -> & ->)|[(c & -> & _ & Hcl & -> & ->)|
    [(c & -> & _ & Hcl & -> & ->)|[(c & dbc & -> & _ & _ & Hcl & -> & ->)|
     (dbc & dba & -> & _ & _ & Hcl & -> & ->)]]]]; simpl.
  - rewrite Hci, Hai, Hcl. by repeat split.
  - rewrite Hci, Hai, Hcl. by repeat split.
  - rewrite Hai, Hcl. by repeat split.
  - rewrite Hcl, list_lookup_middle by done. simpl. repeat split; try done.
    + by apply (open_readers_app_closed w _ {| rd_db := dbc; rd_open := false |}).
    + intros _. apply DatabaseOpenError_asn.
  - rewrite lookup_app_r by lia. rewrite Nat.sub_diag. simpl.
    rewrite lookup_app_r by lia.
    replace (S (length (readers w)) - length (readers w)) with 1 by lia. done.
Qed.


End Construction.

(** ** Downloads *)

Section Downloads.

Variable E : Env.

(** A failed download of the city file is what [ensureDatabases] returns,
    wrapped as a download error. *)
Lemma ensureDatabases_city_download_error (i : IPInfo) (w w1 : World) (c : error) :
  missing E (files w) (cityDB_of (dbDir i)) = true →
  downloadFile E cityDBURL (cityDB_of (dbDir i)) (log (EvStat (cityDB_of (dbDir i))) w)
    = (Done (Some c), w1) →
  ensureDatabases E i w
    = (Done (Some ("failed to download city database: " ++ c), i), w1).
Proof.
  intros Hm Hd. unfold ensureDatabases, download_if_missing, Stat_IsNotExist; run.
  unfold missing in Hm. by rewrite Hm, Hd.
Qed.

Lemma ensureDatabases_asn_download_error (i : IPInfo) (w w1 w2 : World) (c : error) :
  download_if_missing E cityDBURL (cityDB_of (dbDir i)) w = (Done None, w1) →
  missing E (files w1) (asnDB_of (dbDir i)) = true →
  downloadFile E asnDBURL (asnDB_of (dbDir i)) (log (EvStat (asnDB_of (dbDir i))) w1)
    = (Done (Some c), w2) →
  ensureDatabases E i w
    = (Done (Some ("failed to download ASN database: " ++ c), i), w2).
Proof.
  intros H1 Hm Hd. unfold ensureDatabases; run. rewrite H1.
  unfold download_if_missing at 1, Stat_IsNotExist; run.
  unfold missing in Hm. by rewrite Hm, Hd.
Qed.

(** C3, as the code has it.  [downloadFile] fails with the transport error
    when the request fails, and with a bad-status error when the status is
    anything but 200, leaving the files alone; on status 200, when the file
    can be created and written, the destination holds the whole body and
    the call returns what ended the body (nil when it was read to its end).
    [ensureDatabases] returns an error of a [downloadFile] it makes, for a
    file that [os.Stat] says is not there, as a download error. *)
Theorem downloadFile_only_200 (url path : string) (w : World) :
  (∀ c, Get E url = Err c →
        downloadFile E url path w = (Done (Some c), log (EvHttpGet url) w))
  ∧ (∀ resp, Get E url = Ok resp → StatusCode resp ≠ 200%Z →
        downloadFile E url path w
        = (Done (Some ("bad status: " ++ Status resp)), log (EvHttpGet url) w))
  ∧ (∀ resp, Get E url = Ok resp → StatusCode resp = 200%Z →
        Create_fault E path = None →
        (∀ n c, Write_fault E path = Some (n, c) → (length (Body resp) ≤ n)%nat) →
        ∃ w', downloadFile E url path w = (Done (BodyErr resp), w')
              ∧ files w' !! path = Some (Body resp))
  ∧ (∀ i w0 w1 c,
        missing E (files w0) (cityDB_of (dbDir i)) = true →
        downloadFile E cityDBURL (cityDB_of (dbDir i))
          (log (EvStat (cityDB_of (dbDir i))) w0) = (Done (Some c), w1) →
        ∃ e, ensureDatabases E i w0 = (Done (Some e, i), w1)
             ∧ DownloadError e = true
             ∧ e = "failed to download city database: " ++ c)
  ∧ (∀ i w0 w1 w2 c,
        download_if_missing E cityDBURL (cityDB_of (dbDir i)) w0 = (Done None, w1) →
        missing E (files w1) (asnDB_of (dbDir i)) = true →
        downloadFile E asnDBURL (asnDB_of (dbDir i))
          (log (EvStat (asnDB_of (dbDir i))) w1) = (Done (Some c), w2) →
        ∃ e, ensureDatabases E i w0 = (Done (Some e, i), w2)
             ∧ DownloadError e = true
             ∧ e = "failed to download ASN database: " ++ c).
Proof.
  split; [|split; [|split; [|split]]].
  - intros c Hg. rewrite downloadFile_run. simpl. by rewrite Hg.
  - intros resp Hg Hs. rewrite downloadFile_run. simpl.
    by rewrite Hg, bool_decide_eq_true_2.
  - intros resp Hg Hs Hc Hw. rewrite downloadFile_run. simpl.
    rewrite Hg, bool_decide_eq_false_2, Hc by (by intros ?).
    edestruct (io_Copy_run E path resp) as (err & written & -> & Hcopy);
      [by apply lookup_insert_eq|].
    destruct Hcopy as [(-> & -> & _)|(n & c & _ & Hf & Hn & _)].
    + eexists. split; [done|]. simpl. apply lookup_insert_eq.
    + apply Hw in Hf. lia.
  - intros i w0 w1 c Hm Hd. eexists. split; [|split; [|done]].
    + by apply ensureDatabases_city_download_error.
    + apply DownloadError_city.
  - intros i w0 w1 w2 c H1 Hm Hd. eexists. split; [|split; [|done]].
    + by eapply ensureDatabases_asn_download_error.
    + apply DownloadError_asn.
Qed.

(** The two addresses are different. *)
Lemma db_urls_ne : cityDBURL ≠ asnDBURL.
Proof. done. Qed.

(** C5, as the code has it.  [ensureDatabases] fetches nothing when both
    files exist, and then leaves the files as they are.  When one file
    exists and [os.Stat] says of the other that it does not exist, it
    fetches that file alone and leaves the first as it is.  A file on which
    [os.Stat] fails in another way is not fetched, whether it is there or
    not. *)
Theorem ensureDatabases_fetches_missing_only (i : IPInfo) (w : World) :
  ∃ r w' evs,
    ensureDatabases E i w = (Done r, w')
    ∧ trace w' = (trace w ++ evs)%list
    ∧ (files w !! cityDB_of (dbDir i) ≠ None →
       files w !! asnDB_of (dbDir i) ≠ None →
       fetches evs = [] ∧ files w' = files w)
    ∧ (files w !! cityDB_of (dbDir i) = None →
       Stat_fault E (cityDB_of (dbDir i)) = None →
       files w !! asnDB_of (dbDir i) ≠ None →
       fetches evs = [cityDBURL]
       ∧ files w' !! asnDB_of (dbDir i) = files w !! asnDB_of (dbDir i))
    ∧ (files w !! cityDB_of (dbDir i) ≠ None →
       files w !! asnDB_of (dbDir i) = None →
       Stat_fault E (asnDB_of (dbDir i)) = None →
       fetches evs = [asnDBURL]
       ∧ files w' !! cityDB_of (dbDir i) = files w !! cityDB_of (dbDir i))
    ∧ (Stat_fault E (cityDB_of (dbDir i)) ≠ None → cityDBURL ∉ fetches evs)
    ∧ (Stat_fault E (asnDB_of (dbDir i)) ≠ None → asnDBURL ∉ fetches evs).
Proof.
  set (cityDB := cityDB_of (dbDir i)). set (asnDB := asnDB_of (dbDir i)).
  destruct (ensureDatabases_spec E i w)
    as (err & i' & fs & rs & evs & Hrun & Hfr & Hot & _ & Hev & _).
  destruct Hev as (evs1 & evs2 & evs3 & -> & Hf3 & Hf1 & Hf2 & Hfa & Hfc & _).
  fold cityDB asnDB in Hfr, Hot, Hf1, Hfa, Hfc.
  eexists _, _, _. split; [exact Hrun|]. split; [done|]. simpl.
  assert (Hfetch : fetches (evs1 ++ evs2 ++ evs3) = (fetches evs1 ++ fetches evs2)%list).
  { unfold fetches in *. by rewrite !omap_app, Hf3, app_nil_r. }
  rewrite Hfetch, Hf1. split; [|split; [|split; [|split]]].
  - intros Hc Ha. rewrite (missing_present E _ cityDB), Hfa by auto using missing_present.
    split; [done|].
    apply map_eq. intros q.
    destruct (decide (q = cityDB)) as [->|Hq1]; [by apply Hfr|].
    destruct (decide (q = asnDB)) as [->|Hq2]; [by apply Hfr|]. by apply Hot.
  - intros Hc Hs Ha. rewrite (proj2 (missing_iff E _ cityDB)) by done.
    rewrite Hfa by auto using missing_present. split; [done|]. by apply Hfr.
  - intros Hc Ha Hs. rewrite (missing_present E _ cityDB) by done.
    rewrite Hfc; [|by apply missing_present|by apply missing_iff].
    split; [done|]. by apply Hfr.
  - intros Hs. destruct (missing E (files w) cityDB) eqn:Hm.
    { apply missing_iff in Hm as [? _]. done. }
    simpl. destruct Hf2 as [->| ->]; [by apply not_elem_of_nil|].
    intros ?%list_elem_of_singleton. by apply db_urls_ne.
  - intros Hs. rewrite Hfa.
    2: { destruct (missing E (files w) asnDB) eqn:Hm; [|done].
         apply missing_iff in Hm as [? _]. done. }
    rewrite app_nil_r. destruct (missing E (files w) cityDB); [|by apply not_elem_of_nil].
    intros ?%list_elem_of_singleton. by apply db_urls_ne.
Qed.

End Downloads.

(** ** Errors *)

Section Errors.

Variable E : Env.

Lemma database_dir_given (dir0 : string) : dir0 ≠ "" → database_dir E dir0 dir0.
Proof. intros H. unfold database_dir. by rewrite decide_False. Qed.

Lemma database_dir_home (userHome : string) :
  UserHomeDir E = Ok userHome →
  database_dir E "" (filepath_Join [userHome; ".zscan"; "geoip"]).
Proof. intros H. unfold database_dir. rewrite decide_True by done. eauto. Qed.

(** The errors of [NewIPInfo], each with the failure under it. *)
Lemma NewIPInfo_Err_inv (dir0 : string) (w w' : World) (e : error) :
  NewIPInfo E dir0 w = (Done (Err e), w') → construction_error_cause E dir0 w' e.
Proof.
  unfold construction_error_cause.
  rewrite NewIPInfo_run.
  assert (Hdir : (∃ c, dir0 = "" ∧ UserHomeDir E = Err c
                  ∧ (if decide (dir0 = "") then
                       match UserHomeDir E with
                       | Err err => Err ("failed to get user home directory: " ++ err)
                       | Ok userHome => Ok (filepath_Join [userHome; ".zscan"; "geoip"])
                       end
                     else Ok dir0) = Err ("failed to get user home directory: " ++ c))
                 ∨ (∃ dir, database_dir E dir0 dir
                    ∧ (if decide (dir0 = "") then
                         match UserHomeDir E with
                         | Err err => Err ("failed to get user home directory: " ++ err)
                         | Ok userHome => Ok (filepath_Join [userHome; ".zscan"; "geoip"])
                         end
                       else Ok dir0) = Ok dir)).
  { destruct (decide (dir0 = "")) as [->|Hne].
    - destruct (UserHomeDir E) as [home|c] eqn:Hh.
      + right. eexists. split; [by apply database_dir_home|done].
      + left. by exists c.
    - right. exists dir0. split; [by apply database_dir_given|done]. }
  destruct Hdir as [(c & -> & Hh & ->)|(dir & Hdir & ->)].
  { intros [= <- <-]. left. exists c. auto with kinds. }
  simpl. intros Hrun. right. exists dir. split; [done|].
  destruct (MkdirAll E dir) as [c|] eqn:Hmk.
  { injection Hrun as <- <-. left. exists c. auto with kinds. }
  right.
  destruct (ensureDatabases_spec E
              {| cityReader := None; asnReader := None; dbDir := dir |}
              (log (EvMkdirAll dir) w))
    as (err & i' & fs & rs & evs & Hens & _ & _ & _ & _ & Hout).
  rewrite Hens in Hrun. simpl in Hout.
  destruct Hout as [(c & -> & Hc & _)|[(c & -> & Hc & _)|
    [(c & -> & Hc & _)|[(c & dbc & -> & _ & Hc & _)|(dbc & dba & -> & _)]]]];
    [| | | |done]; injection Hrun as <- <-; simpl.
  - left. exists c. auto with kinds.
  - right; left. exists c. auto with kinds.
  - do 2 right; left. exists c. auto with kinds.
  - do 3 right. exists c. auto with kinds.
Qed.

(** A resolver is returned only when no call failed on the way whose error
    the code reads. *)
Lemma NewIPInfo_Ok_inv (dir0 : string) (w w' : World) (i : IPInfo) :
  NewIPInfo E dir0 w = (Done (Ok i), w') → construction_clean E dir0 w w' i.
Proof.
  unfold construction_clean.
  rewrite NewIPInfo_run.
  destruct (decide (dir0 = "")) as [->|Hne].
  - destruct (UserHomeDir E) as [home|c] eqn:Hh; [|done]. simpl.
    destruct (MkdirAll E _) as [c|] eqn:Hmk; [done|].
    match goal with |- context [ensureDatabases E ?i0 ?w0] =>
      destruct (ensureDatabases_spec E i0 w0)
        as (err & i' & fs & rs & evs & -> & _ & _ & _ & Hev & Hout) end.
    simpl in *. destruct Hev as (evs1 & evs2 & evs3 & -> & Hf3 & Hf1 & Hf2 & _ & _ & Hc1 & Hc2).
    destruct Hout as [(c & -> & _)|[(c & -> & _)|
      [(c & -> & _)|[(c & dbc & -> & _)|(dbc & dba & -> & Ho1 & Ho2 & _ & -> & ->)]]]];
      try done.
    intros [= <- <-]. simpl.
    split; [by apply database_dir_home|]. split; [done|]. split; [|by exists dbc, dba].
    exists (EvMkdirAll (filepath_Join [home; ".zscan"; "geoip"]) :: evs1 ++ evs2 ++ evs3)%list.
    split; [by rewrite <-app_assoc|].
    assert (Hfetch : fetches (EvMkdirAll (filepath_Join [home; ".zscan"; "geoip"])
                                :: evs1 ++ evs2 ++ evs3)
                     = (fetches evs1 ++ fetches evs2)%list).
    { unfold fetches in *. simpl. by rewrite !omap_app, Hf3, app_nil_r. }
    rewrite Hfetch. split; intros Hin; [apply Hc1|apply Hc2]; try done;
      intros Hnil; rewrite Hnil in *; clear Hnil.
    + destruct Hf2 as [Hf2|Hf2]; rewrite Hf2 in Hin; [by apply elem_of_nil in Hin|].
      by apply list_elem_of_singleton in Hin.
    + rewrite app_nil_r, Hf1 in Hin.
      destruct (missing _ _ _);
        [by apply list_elem_of_singleton in Hin|by apply elem_of_nil in Hin].
  - simpl.
    destruct (MkdirAll E _) as [c|] eqn:Hmk; [done|].
    match goal with |- context [ensureDatabases E ?i0 ?w0] =>
      destruct (ensureDatabases_spec E i0 w0)
        as (err & i' & fs & rs & evs & -> & _ & _ & _ & Hev & Hout) end.
    simpl in *. destruct Hev as (evs1 & evs2 & evs3 & -> & Hf3 & Hf1 & Hf2 & _ & _ & Hc1 & Hc2).
    destruct Hout as [(c & -> & _)|[(c & -> & _)|
      [(c & -> & _)|[(c & dbc & -> & _)|(dbc & dba & -> & Ho1 & Ho2 & _ & -> & ->)]]]];
      try done.
    intros [= <- <-]. simpl.
    split; [by apply database_dir_given|]. split; [done|]. split; [|by exists dbc, dba].
    exists (EvMkdirAll dir0 :: evs1 ++ evs2 ++ evs3)%list.
    split; [by rewrite <-app_assoc|].
    assert (Hfetch : fetches (EvMkdirAll dir0 :: evs1 ++ evs2 ++ evs3)
                     = (fetches evs1 ++ fetches evs2)%list).
    { unfold fetches in *. simpl. by rewrite !omap_app, Hf3, app_nil_r. }
    rewrite Hfetch. split; intros Hin; [apply Hc1|apply Hc2]; try done;
      intros Hnil; rewrite Hnil in *; clear Hnil.
    + destruct Hf2 as [Hf2|Hf2]; rewrite Hf2 in Hin; [by apply elem_of_nil in Hin|].
      by apply list_elem_of_singleton in Hin.
    + rewrite app_nil_r, Hf1 in Hin.
      destruct (missing _ _ _);
        [by apply list_elem_of_singleton in Hin|by apply elem_of_nil in Hin].
Qed.

(** The errors of [GetIPInfo], each with the failure under it. *)
Lemma GetIPInfo_Err_inv (i : IPInfo) (ip : string) (w w' : World) (e : error) :
  GetIPInfo E i ip w = (Done (Err e), w') → lookup_error_cause E i ip w e.
Proof.
  unfold lookup_error_cause.
  unfold GetIPInfo. destruct (net_ParseIP E ip) as [p|] eqn:Hp.
  2: { run. intros [= <- <-]. by left. }
  run. rewrite Reader_City_run.
  destruct (city_answer (readers w) (cityReader i) p) as [[city|c]|] eqn:Hc;
    destruct (cityReader i) as [hc|] eqn:Hrc; try done.
  2: { intros [= <- <-]. right; left. exists p, c. auto with kinds. }
  rewrite Reader_ASN_run. simpl.
  destruct (asn_answer (readers w) (asnReader i) p) as [[asn|c]|] eqn:Ha;
    destruct (asnReader i) as [ha|] eqn:Hra; try done.
  intros [= <- <-]. right; right. exists p, c. auto with kinds.
Qed.

End Errors.

(** ** What the code does not read *)

Section Discarded.

Variables E E' : Env.
Hypothesis HE : discards_only E E'.

Lemma Stat_IsNotExist_discards (path : string) (w : World) :
  Stat_IsNotExist E path w = Stat_IsNotExist E' path w.
Proof.
  destruct HE as (_ & _ & _ & _ & _ & _ & _ & Hs).
  unfold Stat_IsNotExist, os_Stat. specialize (Hs path).
  destruct (Stat_fault E path), (Stat_fault E' path); try done.
  - by specialize (proj2 Hs eq_refl).
  - by specialize (proj1 Hs eq_refl).
Qed.

Lemma downloadFile_discards (url path : string) (w : World) :
  downloadFile E url path w = downloadFile E' url path w.
Proof.
  destruct HE as (_ & _ & _ & Hg & Hc & Hw & _).
  rewrite !downloadFile_run. unfold io_Copy. by rewrite Hg, Hc, Hw.
Qed.

Lemma download_if_missing_discards (url path : string) (w : World) :
  download_if_missing E url path w = download_if_missing E' url path w.
Proof.
  unfold download_if_missing, mbind, M_bind. rewrite Stat_IsNotExist_discards.
  destruct (Stat_IsNotExist E' path w) as [[[]|] w1]; [|done..].
  apply downloadFile_discards.
Qed.

Lemma geoip2_Open_discards (file : string) (w : World) :
  geoip2_Open E file w = geoip2_Open E' file w.
Proof.
  destruct HE as (_ & _ & _ & _ & _ & _ & Hd & _).
  unfold geoip2_Open. by rewrite Hd.
Qed.

Lemma ensureDatabases_discards (i : IPInfo) (w : World) :
  ensureDatabases E i w = ensureDatabases E' i w.
Proof.
  unfold ensureDatabases, mbind, M_bind. rewrite download_if_missing_discards.
  destruct (download_if_missing E' _ _ w) as [[[c|]|] w1]; [done| |done].
  rewrite download_if_missing_discards.
  destruct (download_if_missing E' _ _ w1) as [[[c|]|] w2]; [done| |done].
  rewrite geoip2_Open_discards.
  destruct (geoip2_Open E' _ w2) as [[[r [c|]]|] w3]; [done| |done].
  by rewrite geoip2_Open_discards.
Qed.

Lemma NewIPInfo_discards (dir0 : string) (w : World) :
  NewIPInfo E dir0 w = NewIPInfo E' dir0 w.
Proof.
  rewrite !NewIPInfo_run.
  destruct HE as (_ & Hh & Hm & _). rewrite Hh, Hm.
  destruct (if decide (dir0 = "") then _ else _) as [dir|e]; [|done].
  simpl. destruct (MkdirAll E' dir); [done|].
  by rewrite ensureDatabases_discards.
Qed.

Lemma GetIPInfo_discards (i : IPInfo) (ip : string) (w : World) :
  GetIPInfo E i ip w = GetIPInfo E' i ip w.
Proof.
  destruct HE as (Hp & _). unfold GetIPInfo. by rewrite Hp.
Qed.

End Discarded.

(** [Close] returns, and returns nothing, whatever closing the readers
    returns. *)
Lemma Close_returns (i : IPInfo) (w : World) :
  valid_reader w (cityReader i) → valid_reader w (asnReader i) →
  (Close i w).1 = Done tt.
Proof.
  intros Hc Ha. unfold Close.
  destruct (cityReader i) as [hc|] eqn:Hrc; destruct (asnReader i) as [ha|] eqn:Hra;
    run; rewrite ?Reader_Close_run by done; simpl; try done.
  rewrite Reader_Close_run; [done|done|].
  simpl in *. by destruct (readers w !! hc); rewrite ?length_insert.
Qed.


(** * The properties on the fixture *)

Lemma GetIPInfo_invalid_address_witness :
  net_ParseIP Fixture.env "not-an-ip" = None
  ∧ ∃ e w', GetIPInfo Fixture.env Fixture.resolver "not-an-ip" Fixture.world_open
            = (Done (Err e), w')
            ∧ InvalidAddressError e = true
            ∧ w' = Fixture.world_open
            ∧ queried (trace w') = queried (trace Fixture.world_open).
Proof.
  split; [reflexivity|].
  apply (GetIPInfo_invalid_address Fixture.env Fixture.resolver "not-an-ip").
  reflexivity.
Defined.

Lemma GetIPInfo_unpopulated_fields_witness :
  GetIPInfo Fixture.env Fixture.resolver "192.0.2.1" Fixture.world_open
  = (Done (Ok Fixture.berlin_details), Fixture.world_after_lookup)
  ∧ ISP Fixture.berlin_details = "" ∧ Domain Fixture.berlin_details = ""
    ∧ NetworkType Fixture.berlin_details = ""
    ∧ IsAnonymous Fixture.berlin_details = false
    ∧ IsAnonymousVPN Fixture.berlin_details = false
    ∧ IsHosting Fixture.berlin_details = false
    ∧ IsProxy Fixture.berlin_details = false
    ∧ IsTorExitNode Fixture.berlin_details = false.
Proof.
  split; [vm_compute; reflexivity|].
  apply (GetIPInfo_unpopulated_fields Fixture.env Fixture.resolver "192.0.2.1"
           Fixture.world_open Fixture.world_after_lookup).
  vm_compute; reflexivity.
Defined.

Lemma GetIPInfo_region_witness :
  ∃ parsedIP city,
    net_ParseIP Fixture.env "192.0.2.1" = Some parsedIP
    ∧ city_answer (readers Fixture.world_open) (cityReader Fixture.resolver) parsedIP
      = Done (Ok city)
    ∧ match geoip2.Subdivisions city with
      | s0 :: _ =>
          Region Fixture.berlin_details = getLocalizedName (geoip2.Names s0) "en"
          ∧ RegionCode Fixture.berlin_details = geoip2.IsoCode s0
      | [] => Region Fixture.berlin_details = "" ∧ RegionCode Fixture.berlin_details = ""
      end.
Proof.
  apply (GetIPInfo_region Fixture.env Fixture.resolver "192.0.2.1"
           Fixture.world_open Fixture.world_after_lookup).
  vm_compute; reflexivity.
Defined.

Lemma GetIPInfo_deterministic_witness :
  readers Fixture.world_open = readers Fixture.world_after_lookup
  ∧ (GetIPInfo Fixture.env Fixture.resolver "192.0.2.1" Fixture.world_open).1
    = (GetIPInfo Fixture.env Fixture.resolver "192.0.2.1" Fixture.world_after_lookup).1
  ∧ (GetIPInfo Fixture.env Fixture.resolver "192.0.2.1"
       (GetIPInfo Fixture.env Fixture.resolver "192.0.2.1" Fixture.world_open).2).1
    = (GetIPInfo Fixture.env Fixture.resolver "192.0.2.1" Fixture.world_open).1.
Proof.
  split; [reflexivity|].
  apply (GetIPInfo_deterministic Fixture.env Fixture.resolver "192.0.2.1"
           Fixture.world_open Fixture.world_after_lookup).
  reflexivity.
Defined.

Lemma Close_safe_witness :
  valid_reader Fixture.world_open (cityReader Fixture.resolver)
  ∧ valid_reader Fixture.world_open (asnReader Fixture.resolver)
  ∧ closed (close_event (cityReader Fixture.resolver)
            ++ close_event (asnReader Fixture.resolver)) = [0; 1]
  ∧ Close Fixture.unopened Fixture.empty_world = (Done tt, Fixture.empty_world).
Proof.
  assert (Hc : valid_reader Fixture.world_open (cityReader Fixture.resolver))
    by (simpl; lia).
  assert (Ha : valid_reader Fixture.world_open (asnReader Fixture.resolver))
    by (simpl; lia).
  split; [exact Hc|]. split; [exact Ha|].
  destruct (Close_safe Fixture.resolver Fixture.world_open Hc Ha) as (_ & Hcl & _).
  split; [exact Hcl|].
  destruct (Close_safe Fixture.unopened Fixture.empty_world I I) as (_ & _ & Hnil).
  apply Hnil; reflexivity.
Defined.


(** In the fixture with the bad ASN file the city reader is opened, the ASN
    file does not open, and the city reader is closed again. *)
Example ensureDatabases_bad_asn :
  let r := ensureDatabases Fixture.env_bad_asn Fixture.unopened Fixture.empty_world in
  r.1 = Done (Some "failed to open ASN database: error opening database: invalid MaxMind DB file",
              {| cityReader := Some 0; asnReader := None; dbDir := Fixture.dir |})
  ∧ closed (trace r.2) = [0]
  ∧ open_readers r.2 = [].
Proof. by vm_compute. Qed.

(** C3 as the specification states it does not hold: a response with status
    204, a 2xx status, on surroundings without any local fault, makes
    [downloadFile] fail, and the destination is not written. *)
Lemma downloadFile_2xx_counterexample :
  Get Fixture.env_204 cityDBURL = Ok Fixture.no_content
  ∧ (200 ≤ StatusCode Fixture.no_content < 300)%Z
  ∧ Create_fault Fixture.env_204 Fixture.cityDB = None
  ∧ Write_fault Fixture.env_204 Fixture.cityDB = None
  ∧ BodyErr Fixture.no_content = None
  ∧ (downloadFile Fixture.env_204 cityDBURL Fixture.cityDB Fixture.empty_world).1
    = Done (Some "bad status: 204 No Content")
  ∧ (downloadFile Fixture.env_204 cityDBURL Fixture.cityDB Fixture.empty_world).1
    ≠ Done None
  ∧ files (downloadFile Fixture.env_204 cityDBURL Fixture.cityDB Fixture.empty_world).2
      !! Fixture.cityDB = None.
Proof. by vm_compute. Qed.

Lemma downloadFile_only_200_witness :
  downloadFile Fixture.env_offline cityDBURL Fixture.cityDB Fixture.empty_world
  = (Done (Some "dial tcp: connection refused"),
     log (EvHttpGet cityDBURL) Fixture.empty_world)
  ∧ downloadFile Fixture.env_404 cityDBURL Fixture.cityDB Fixture.empty_world
    = (Done (Some ("bad status: " ++ Status Fixture.not_found)),
       log (EvHttpGet cityDBURL) Fixture.empty_world)
  ∧ (∃ w', downloadFile Fixture.env cityDBURL Fixture.cityDB Fixture.empty_world
           = (Done (BodyErr (Fixture.ok_response [x01; x2a])), w')
           ∧ files w' !! Fixture.cityDB = Some (Body (Fixture.ok_response [x01; x2a])))
  ∧ (∃ e, ensureDatabases Fixture.env_404 Fixture.unopened Fixture.empty_world
          = (Done (Some e, Fixture.unopened),
             (downloadFile Fixture.env_404 cityDBURL Fixture.cityDB
                (log (EvStat Fixture.cityDB) Fixture.empty_world)).2)
          ∧ DownloadError e = true
          ∧ e = "failed to download city database: " ++ "bad status: 404 Not Found")
  ∧ (∃ e, ensureDatabases Fixture.env_asn_404 Fixture.unopened Fixture.world_with_city
          = (Done (Some e, Fixture.unopened),
             (downloadFile Fixture.env_asn_404 asnDBURL Fixture.asnDB
                (log (EvStat Fixture.asnDB)
                   (log (EvStat Fixture.cityDB) Fixture.world_with_city))).2)
          ∧ DownloadError e = true
          ∧ e = "failed to download ASN database: " ++ "bad status: 404 Not Found").
Proof.
  split; [|split; [|split; [|split]]].
  - apply (proj1 (downloadFile_only_200 Fixture.env_offline cityDBURL Fixture.cityDB
                    Fixture.empty_world)).
    reflexivity.
  - apply (proj1 (proj2 (downloadFile_only_200 Fixture.env_404 cityDBURL Fixture.cityDB
                           Fixture.empty_world))).
    + reflexivity.
    + vm_compute. discriminate.
  - apply (proj1 (proj2 (proj2 (downloadFile_only_200 Fixture.env cityDBURL Fixture.cityDB
                                  Fixture.empty_world)))).
    + reflexivity.
    + reflexivity.
    + reflexivity.
    + intros n c Hf. vm_compute in Hf. discriminate Hf.
  - apply (proj1 (proj2 (proj2 (proj2 (downloadFile_only_200 Fixture.env_404 cityDBURL
                                         Fixture.cityDB Fixture.empty_world))))
             Fixture.unopened Fixture.empty_world).
    + vm_compute; reflexivity.
    + vm_compute; reflexivity.
  - apply (proj2 (proj2 (proj2 (proj2 (downloadFile_only_200 Fixture.env_asn_404
                                         cityDBURL Fixture.cityDB Fixture.empty_world))))
             Fixture.unopened Fixture.world_with_city
             (log (EvStat Fixture.cityDB) Fixture.world_with_city)).
    + vm_compute; reflexivity.
    + vm_compute; reflexivity.
    + vm_compute; reflexivity.
Defined.

(** C5 as the specification states it does not hold: the city file is
    missing and the ASN file is there, [os.Stat] fails on the path of the
    city file with an error that is not not-exist, and nothing is fetched;
    the city file then does not open. *)
Lemma ensureDatabases_stat_error_counterexample :
  files Fixture.world_with_asn !! Fixture.cityDB = None
  ∧ files Fixture.world_with_asn !! Fixture.asnDB ≠ None
  ∧ Stat_fault Fixture.env_stat_error Fixture.cityDB = Some Fixture.stat_error
  ∧ fetches (trace (ensureDatabases Fixture.env_stat_error Fixture.unopened
                      Fixture.world_with_asn).2) = []
  ∧ (ensureDatabases Fixture.env_stat_error Fixture.unopened Fixture.world_with_asn).1
    = Done (Some ("failed to open city database: "
                  ++ "open /var/lib/zscan/GeoLite2-City.mmdb: no such file or directory"),
            Fixture.unopened).
Proof. by vm_compute. Qed.

Lemma ensureDatabases_fetches_missing_only_witness :
  (files Fixture.world_with_both !! Fixture.cityDB ≠ None
   ∧ files Fixture.world_with_both !! Fixture.asnDB ≠ None
   ∧ ∃ evs,
       trace (ensureDatabases Fixture.env_offline Fixture.unopened Fixture.world_with_both).2
       = (trace Fixture.world_with_both ++ evs)%list
       ∧ fetches evs = []
       ∧ files (ensureDatabases Fixture.env_offline Fixture.unopened
                  Fixture.world_with_both).2
         = files Fixture.world_with_both)
  ∧ (files Fixture.world_with_asn !! Fixture.cityDB = None
     ∧ Stat_fault Fixture.env Fixture.cityDB = None
     ∧ files Fixture.world_with_asn !! Fixture.asnDB ≠ None
     ∧ ∃ evs,
         trace (ensureDatabases Fixture.env Fixture.unopened Fixture.world_with_asn).2
         = (trace Fixture.world_with_asn ++ evs)%list
         ∧ fetches evs = [cityDBURL]
         ∧ files (ensureDatabases Fixture.env Fixture.unopened Fixture.world_with_asn).2
             !! Fixture.asnDB
           = files Fixture.world_with_asn !! Fixture.asnDB)
  ∧ (files Fixture.world_with_city !! Fixture.cityDB ≠ None
     ∧ files Fixture.world_with_city !! Fixture.asnDB = None
     ∧ Stat_fault Fixture.env Fixture.asnDB = None
     ∧ ∃ evs,
         trace (ensureDatabases Fixture.env Fixture.unopened Fixture.world_with_city).2
         = (trace Fixture.world_with_city ++ evs)%list
         ∧ fetches evs = [asnDBURL]
         ∧ files (ensureDatabases Fixture.env Fixture.unopened Fixture.world_with_city).2
             !! Fixture.cityDB
           = files Fixture.world_with_city !! Fixture.cityDB)
  ∧ (Stat_fault Fixture.env_stat_error Fixture.cityDB ≠ None
     ∧ ∃ evs,
         trace (ensureDatabases Fixture.env_stat_error Fixture.unopened
                  Fixture.world_with_asn).2
         = (trace Fixture.world_with_asn ++ evs)%list
         ∧ cityDBURL ∉ fetches evs)
  ∧ (Stat_fault (Fixture.env_stat_fault Fixture.asnDB "stat: input/output error")
       Fixture.asnDB ≠ None
     ∧ ∃ evs,
         trace (ensureDatabases
                  (Fixture.env_stat_fault Fixture.asnDB "stat: input/output error")
                  Fixture.unopened Fixture.world_with_city).2
         = (trace Fixture.world_with_city ++ evs)%list
         ∧ asnDBURL ∉ fetches evs).
Proof.
  assert (Hcb : files Fixture.world_with_both !! Fixture.cityDB ≠ None)
    by (vm_compute; discriminate).
  assert (Hab : files Fixture.world_with_both !! Fixture.asnDB ≠ None)
    by (vm_compute; discriminate).
  assert (Hca : files Fixture.world_with_asn !! Fixture.cityDB = None) by (vm_compute; reflexivity).
  assert (Haa : files Fixture.world_with_asn !! Fixture.asnDB ≠ None)
    by (vm_compute; discriminate).
  assert (Hcc : files Fixture.world_with_city !! Fixture.cityDB ≠ None)
    by (vm_compute; discriminate).
  assert (Hac : files Fixture.world_with_city !! Fixture.asnDB = None) by (vm_compute; reflexivity).
  assert (Hsc : Stat_fault Fixture.env Fixture.cityDB = None) by reflexivity.
  assert (Hsa : Stat_fault Fixture.env Fixture.asnDB = None) by reflexivity.
  assert (Hfc : Stat_fault Fixture.env_stat_error Fixture.cityDB ≠ None)
    by (vm_compute; discriminate).
  assert (Hfa : Stat_fault (Fixture.env_stat_fault Fixture.asnDB "stat: input/output error")
                  Fixture.asnDB ≠ None)
    by (vm_compute; discriminate).
  split; [|split; [|split; [|split]]].
  - split; [exact Hcb|]. split; [exact Hab|].
    destruct (ensureDatabases_fetches_missing_only Fixture.env_offline Fixture.unopened
                Fixture.world_with_both) as (r & w' & evs & Hrun & Htr & H1 & _).
    rewrite Hrun. exists evs. split; [exact Htr|]. exact (H1 Hcb Hab).
  - split; [exact Hca|]. split; [exact Hsc|]. split; [exact Haa|].
    destruct (ensureDatabases_fetches_missing_only Fixture.env Fixture.unopened
                Fixture.world_with_asn) as (r & w' & evs & Hrun & Htr & _ & H2 & _).
    rewrite Hrun. exists evs. split; [exact Htr|]. exact (H2 Hca Hsc Haa).
  - split; [exact Hcc|]. split; [exact Hac|]. split; [exact Hsa|].
    destruct (ensureDatabases_fetches_missing_only Fixture.env Fixture.unopened
                Fixture.world_with_city) as (r & w' & evs & Hrun & Htr & _ & _ & H3 & _).
    rewrite Hrun. exists evs. split; [exact Htr|]. exact (H3 Hcc Hac Hsa).
  - split; [exact Hfc|].
    destruct (ensureDatabases_fetches_missing_only Fixture.env_stat_error Fixture.unopened
                Fixture.world_with_asn) as (r & w' & evs & Hrun & Htr & _ & _ & _ & H4 & _).
    rewrite Hrun. exists evs. split; [exact Htr|]. exact (H4 Hfc).
  - split; [exact Hfa|].
    destruct (ensureDatabases_fetches_missing_only
                (Fixture.env_stat_fault Fixture.asnDB "stat: input/output error")
                Fixture.unopened Fixture.world_with_city)
      as (r & w' & evs & Hrun & Htr & _ & _ & _ & _ & H5).
    rewrite Hrun. exists evs. split; [exact Htr|]. exact (H5 Hfa).
Defined.



(** * Further properties of the resolver *)

(** ** The locale resolver *)

(** X1. Only the entries under the requested language and under ["en"]
    matter: adding, changing or removing any other entry of the map leaves
    the name that is returned as it is. *)
Theorem getLocalizedName_other_keys
    (m : gmap string string) (lang k : string) (v : option string) :
  k ≠ lang → k ≠ "en" →
  getLocalizedName (Some (partial_alter (λ _, v) k m)) lang
  = getLocalizedName (Some m) lang.
Proof.
  intros Hl He. unfold getLocalizedName, map_index.
  by rewrite !lookup_partial_alter_ne.
Qed.

Lemma getLocalizedName_other_keys_witness :
  getLocalizedName
    (Some (partial_alter (λ _, Some "Allemagne") "fr"
             {[ "en" := "Germany"; "de" := "Deutschland" ]})) "de"
  = getLocalizedName (Some {[ "en" := "Germany"; "de" := "Deutschland" ]}) "de".
Proof.
  apply (getLocalizedName_other_keys {[ "en" := "Germany"; "de" := "Deutschland" ]}
           "de" "fr" (Some "Allemagne")); discriminate.
Defined.

(** ** Lookups *)

Section MoreLookup.

Variable E : Env.

(** X2. A record returned by [GetIPInfo] takes the codes, the postal code,
    the time zone, the coordinates and the ASN data as the two readers
    answered them, the names of continent, country and city from the ["en"]
    fallback chain, and the accuracy radius reduced to 16 bits, which changes
    nothing for a radius that is a 16-bit value already. *)
Theorem GetIPInfo_copies_fields
    (i : IPInfo) (ip : string) (w w' : World) (d : IPDetails) :
  GetIPInfo E i ip w = (Done (Ok d), w') →
  ∃ p city asn,
    net_ParseIP E ip = Some p
    ∧ city_answer (readers w) (cityReader i) p = Done (Ok city)
    ∧ asn_answer (readers w) (asnReader i) p = Done (Ok asn)
    ∧ Continent d = getLocalizedName (geoip2.Continent_Names (geoip2.Continent city)) "en"
    ∧ ContinentCode d = geoip2.Continent_Code (geoip2.Continent city)
    ∧ Country d = getLocalizedName (geoip2.Names (geoip2.Country city)) "en"
    ∧ CountryCode d = geoip2.IsoCode (geoip2.Country city)
    ∧ City d = getLocalizedName (geoip2.City_Names (geoip2.City_ city)) "en"
    ∧ PostalCode d = geoip2.Postal_Code city
    ∧ TimeZone d = geoip2.TimeZone (geoip2.Location city)
    ∧ Latitude d = geoip2.Latitude (geoip2.Location city)
    ∧ Longitude d = geoip2.Longitude (geoip2.Location city)
    ∧ ASN d = geoip2.AutonomousSystemNumber asn
    ∧ ASNOrg d = geoip2.AutonomousSystemOrganization asn
    ∧ (0 ≤ AccuracyRadius d < 65536)%Z
    ∧ ((0 ≤ geoip2.AccuracyRadius (geoip2.Location city) < 65536)%Z →
       AccuracyRadius d = geoip2.AccuracyRadius (geoip2.Location city)).
Proof.
  intros (p & hc & ha & city & asn & Hp & _ & _ & Hc & Ha & -> & _)%GetIPInfo_Ok_inv.
  exists p, city, asn. do 3 (split; [done|]).
  assert (Hr : AccuracyRadius (compose_details city asn)
               = uint16 (geoip2.AccuracyRadius (geoip2.Location city))).
  { unfold compose_details. by destruct (geoip2.Subdivisions city). }
  rewrite Hr. unfold compose_details.
  destruct (geoip2.Subdivisions city); simpl; repeat split; try done;
    unfold uint16; try apply Z.mod_pos_bound; try done;
    intros Hrange; by apply Z.mod_small.
Qed.

Lemma GetIPInfo_city_Err_run (i : IPInfo) (ip : string) (w : World) (p : IP) (c : error) :
  net_ParseIP E ip = Some p →
  city_answer (readers w) (cityReader i) p = Done (Err c) →
  ∃ hc, cityReader i = Some hc
        ∧ GetIPInfo E i ip w
          = (Done (Err ("failed to query city information: " ++ c)),
             log (EvCity hc p) w).
Proof.
  intros Hp Hc.
  assert (Hnil : ∃ hc, cityReader i = Some hc)
    by (destruct (cityReader i); [eauto | done]).
  destruct Hnil as [hc Hrc]. exists hc. split; [done|].
  unfold GetIPInfo. rewrite Hp.
  unfold mbind, M_bind, mret, M_ret. rewrite !Reader_City_run.
  rewrite Hc, Hrc. done.
Qed.

(** X3. When the city reader answers an error, [GetIPInfo] returns it as a
    city lookup error after that one query: the ASN reader is not queried,
    and not even looked at. *)
Theorem GetIPInfo_city_failure_stops
    (i : IPInfo) (ip : string) (w : World) (p : IP) (c : error) :
  net_ParseIP E ip = Some p →
  city_answer (readers w) (cityReader i) p = Done (Err c) →
  ∃ hc, cityReader i = Some hc
        ∧ GetIPInfo E i ip w
          = (Done (Err ("failed to query city information: " ++ c)),
             log (EvCity hc p) w)
        ∧ GetIPInfo E (with_asnReader i None) ip w = GetIPInfo E i ip w.
Proof.
  intros Hp Hc.
  assert (Hnil : ∃ hc, cityReader i = Some hc)
    by (destruct (cityReader i); [eauto | done]).
  destruct Hnil as [hc Hrc]. exists hc. split; [done|].
  unfold GetIPInfo. rewrite Hp.
  unfold mbind, M_bind, mret, M_ret. rewrite !Reader_City_run.
  cbn [cityReader with_asnReader]. rewrite Hc, Hrc. done.
Qed.

(** X4. Whatever its outcome, [GetIPInfo] leaves the files and the readers
    as they are, and all it does is at most one query of the city reader
    followed by at most one query of the ASN reader: it fetches, creates,
    opens and closes nothing. *)
Theorem GetIPInfo_read_only (i : IPInfo) (ip : string) (w : World) :
  ∃ evs,
    trace (GetIPInfo E i ip w).2 = (trace w ++ evs)%list
    ∧ files (GetIPInfo E i ip w).2 = files w
    ∧ readers (GetIPInfo E i ip w).2 = readers w
    ∧ fetches evs = [] ∧ created evs = [] ∧ opened evs = [] ∧ closed evs = []
    ∧ (queried evs = []
       ∨ queried evs = option_list (cityReader i)
       ∨ queried evs = (option_list (cityReader i) ++ option_list (asnReader i))%list).
Proof.
  unfold GetIPInfo. destruct (net_ParseIP E ip) as [p|].
  2: { exists []. run. rewrite app_nil_r. repeat split; auto. }
  run. rewrite Reader_City_run.
  destruct (city_answer (readers w) (cityReader i) p) as [[city|e]|];
    destruct (cityReader i) as [hc|]; simpl;
    try (exists []; rewrite app_nil_r; by repeat split; auto).
  2: { exists [EvCity hc p]. repeat split; auto. }
  rewrite Reader_ASN_run. simpl.
  destruct (asn_answer (readers w) (asnReader i) p) as [[asn|e]|];
    destruct (asnReader i) as [ha|]; simpl;
    try (exists [EvCity hc p]; by repeat split; auto);
    exists [EvCity hc p; EvASN ha p]; rewrite <-app_assoc; repeat split; auto.
Qed.

End MoreLookup.

Lemma GetIPInfo_copies_fields_witness :
  GetIPInfo Fixture.env Fixture.resolver "192.0.2.1" Fixture.world_open
  = (Done (Ok Fixture.berlin_details), Fixture.world_after_lookup)
  ∧ (0 ≤ AccuracyRadius Fixture.berlin_details < 65536)%Z.
Proof.
  assert (Hrun : GetIPInfo Fixture.env Fixture.resolver "192.0.2.1" Fixture.world_open
                 = (Done (Ok Fixture.berlin_details), Fixture.world_after_lookup))
    by (vm_compute; reflexivity).
  split; [exact Hrun|].
  destruct (GetIPInfo_copies_fields Fixture.env Fixture.resolver "192.0.2.1"
              Fixture.world_open Fixture.world_after_lookup Fixture.berlin_details Hrun)
    as (p & city & asn & _ & _ & _ & _ & _ & _ & _ & _ & _ & _ & _ & _ & _ & _
        & Hrange & _).
  exact Hrange.
Defined.

(** ** Closing *)

Lemma close_in_lookup (r : Reader) (rs : list ReaderState) (h : nat) :
  close_in r rs !! h
  = (λ st, if decide (r = Some h) then shut st else st) <$> rs !! h.
Proof.
  destruct r as [h'|]; simpl.
  2: { by destruct (rs !! h). }
  destruct (rs !! h') as [st'|] eqn:Hh'.
  - destruct (decide (h' = h)) as [->|Hne].
    + rewrite list_lookup_insert_eq by (by eapply lookup_lt_Some).
      rewrite Hh'. simpl. by rewrite decide_True.
    + rewrite list_lookup_insert_ne by done.
      destruct (rs !! h); simpl; [|done]. rewrite decide_False; [done|congruence].
  - destruct (rs !! h) as [st|] eqn:Hh; simpl; [|done].
    rewrite decide_False; [done|]. intros [= ->]. congruence.
Qed.

Lemma Close_run (i : IPInfo) (w : World) :
  valid_reader w (cityReader i) → valid_reader w (asnReader i) →
  Close i w =
    (Done tt,
     {| files := files w;
        readers := close_in (asnReader i) (close_in (cityReader i) (readers w));
        trace := (trace w ++ close_event (cityReader i) ++ close_event (asnReader i))%list |}).
Proof.
  intros Hc Ha. unfold Close.
  destruct (cityReader i) as [hc|] eqn:Hrc; destruct (asnReader i) as [ha|] eqn:Hra;
    run; rewrite ?Reader_Close_run by done; simpl.
  - rewrite Reader_Close_run; [| done |].
    + simpl. by rewrite <-app_assoc.
    + simpl in *. by destruct (readers w !! hc); rewrite ?length_insert.
  - done.
  - done.
  - by rewrite ?app_nil_r, world_eta.
Qed.

Lemma valid_reader_close_in (w : World) (r r1 r2 : Reader) (fs : gmap string (list byte))
    (t : list Event) :
  valid_reader w r →
  valid_reader {| files := fs; readers := close_in r2 (close_in r1 (readers w)); trace := t |} r.
Proof. destruct r as [h|]; [|done]. simpl. by rewrite !close_in_length. Qed.

Lemma Close_readers (i : IPInfo) (w : World) (h : nat) :
  valid_reader w (cityReader i) → valid_reader w (asnReader i) →
  readers (Close i w).2 !! h
  = (λ st, if decide (cityReader i = Some h ∨ asnReader i = Some h)
           then shut st else st) <$> readers w !! h.
Proof.
  intros Hc Ha. rewrite Close_run by done. cbn [snd readers].
  rewrite !close_in_lookup. destruct (readers w !! h) as [st|]; [|done].
  cbn [fmap option_fmap option_map]. f_equal.
  destruct (decide (cityReader i = Some h)), (decide (asnReader i = Some h));
    (rewrite decide_True by tauto) || (rewrite decide_False by tauto); done.
Qed.

Lemma is_open_lookup (w : World) (h : nat) :
  is_open w (Some h) = default false (rd_open <$> readers w !! h).
Proof. simpl. by destruct (readers w !! h). Qed.

(** X5. After [Close] neither reader of the resolver is open; every other
    reader of the process is as it was, and so are the files. *)
Theorem Close_closes_both (i : IPInfo) (w : World) :
  valid_reader w (cityReader i) → valid_reader w (asnReader i) →
  is_open (Close i w).2 (cityReader i) = false
  ∧ is_open (Close i w).2 (asnReader i) = false
  ∧ files (Close i w).2 = files w
  ∧ ∀ h, cityReader i ≠ Some h → asnReader i ≠ Some h →
         readers (Close i w).2 !! h = readers w !! h.
Proof.
  intros Hc Ha. split; [|split; [|split]].
  - destruct (cityReader i) as [hc|] eqn:Hrc; [|done].
    rewrite is_open_lookup, Close_readers by (by rewrite ?Hrc).
    rewrite Hrc. destruct (readers w !! hc); simpl; [|done].
    by rewrite decide_True by tauto.
  - destruct (asnReader i) as [ha|] eqn:Hra; [|done].
    rewrite is_open_lookup, Close_readers by (by rewrite ?Hra).
    rewrite Hra. destruct (readers w !! ha); simpl; [|done].
    by rewrite decide_True by tauto.
  - by rewrite Close_run.
  - intros h Hhc Hha. rewrite Close_readers by done.
    destruct (readers w !! h); simpl; [|done].
    by rewrite decide_False by tauto.
Qed.

(** X6. [Close] does not forget the readers it closed: a second [Close]
    calls [Close] on the same readers again, and leaves the readers in the
    state the first one left them in. *)
Theorem Close_twice (i : IPInfo) (w : World) :
  valid_reader w (cityReader i) → valid_reader w (asnReader i) →
  Close i (Close i w).2 =
    (Done tt,
     {| files := files w;
        readers := readers (Close i w).2;
        trace := (trace (Close i w).2
                  ++ close_event (cityReader i) ++ close_event (asnReader i))%list |})
  ∧ closed (drop (length (trace w)) (trace (Close i (Close i w).2).2))
    = (option_list (cityReader i) ++ option_list (asnReader i)
       ++ option_list (cityReader i) ++ option_list (asnReader i))%list.
Proof.
  intros Hc Ha. rewrite (Close_run i w) by done. simpl.
  rewrite Close_run by (by apply valid_reader_close_in). simpl.
  split.
  - f_equal. f_equal. apply list_eq. intros h. rewrite !close_in_lookup.
    destruct (readers w !! h) as [st|]; simpl; [|done]. f_equal.
    by destruct (decide (cityReader i = Some h)), (decide (asnReader i = Some h)).
  - rewrite <-app_assoc, drop_app_length.
    by destruct (cityReader i), (asnReader i).
Qed.

Section AfterClose.

Variable E : Env.

(** X7. A lookup after [Close] is not guarded: it goes to the closed city
    reader, and what comes back is a city lookup error, never a record.  The
    error under it is the one of a closed database when the database of the
    reader has city data; a database of another type refuses the method
    before it looks at the reader, closed or not. *)
Theorem GetIPInfo_after_Close
    (i : IPInfo) (ip : string) (w : World) (p : IP) (hc : nat) (st : ReaderState) :
  cityReader i = Some hc →
  readers w !! hc = Some st → valid_reader w (asnReader i) →
  net_ParseIP E ip = Some p →
  GetIPInfo E i ip (Close i w).2
  = (Done (Err ("failed to query city information: "
                ++ (if geoip2.has_City (rd_db st) then closed_database
                    else geoip2.InvalidMethodError "City" (geoip2.db_type (rd_db st))))),
     log (EvCity hc p) (Close i w).2).
Proof.
  intros Hrc Hst Ha Hp.
  assert (Hc : valid_reader w (cityReader i)).
  { rewrite Hrc. simpl. by eapply lookup_lt_Some. }
  set (c := if geoip2.has_City (rd_db st) then closed_database
            else geoip2.InvalidMethodError "City" (geoip2.db_type (rd_db st))).
  assert (Hans : city_answer (readers (Close i w).2) (cityReader i) p = Done (Err c)).
  { unfold city_answer. rewrite Hrc, Close_readers by done.
    rewrite Hst. simpl. rewrite decide_True by tauto.
    unfold City_of, c. simpl. by destruct (geoip2.has_City (rd_db st)). }
  destruct (GetIPInfo_city_Err_run E i ip (Close i w).2 p c Hp Hans)
    as (hc' & Hrc' & Hrun).
  rewrite Hrun. by replace hc' with hc by congruence.
Qed.

End AfterClose.

(** ** The paths of the two databases *)

Lemma elements_of_nonempty (s : string) : elements_of s ≠ [].
Proof.
  destruct s as [|c s]; simpl; [done|].
  destruct (Ascii.eqb c "/"); [done|]. by destruct (elements_of s).
Qed.

Lemma elements_of_app (a b : string) :
  elements_of (a ++ "/" ++ b) = (elements_of a ++ elements_of b)%list.
Proof.
  induction a as [|c a IH]; [done|].
  change (String c a ++ "/" ++ b) with (String c (a ++ "/" ++ b)).
  cbn [elements_of]. rewrite IH.
  destruct (Ascii.eqb c "/"); [done|].
  pose proof (elements_of_nonempty a) as Hne.
  by destruct (elements_of a).
Qed.

Lemma string_app_assoc (a b c : string) : (a ++ b) ++ c = a ++ b ++ c.
Proof.
  induction a as [|x a IH]; [done|].
  change (String x ((a ++ b) ++ c) = String x (a ++ b ++ c)). by f_equal.
Qed.

Lemma string_app_inv_head (a b c : string) : a ++ b = a ++ c → b = c.
Proof. apply (inj (String.append a)). Qed.

Lemma strings_Join_snoc (l : list string) (x sep : string) :
  strings_Join (l ++ [x]) sep
  = match l with
    | [] => x
    | _ => strings_Join l sep ++ sep ++ x
    end.
Proof.
  induction l as [|y l IH]; [done|].
  change ((y :: l) ++ [x])%list with (y :: (l ++ [x]))%list.
  destruct l as [|z l]; [done|].
  change (strings_Join (y :: ((z :: l) ++ [x])%list) sep)
    with (y ++ sep ++ strings_Join ((z :: l) ++ [x])%list sep).
  rewrite IH.
  change (strings_Join (y :: z :: l) sep) with (y ++ sep ++ strings_Join (z :: l) sep).
  by rewrite !string_app_assoc.
Qed.

Lemma is_rooted_app (d a b : string) :
  is_rooted (d ++ "/" ++ a) = is_rooted (d ++ "/" ++ b).
Proof. by destruct d. Qed.

Lemma clean_step_plain (rooted : bool) (out : list string) (name : string) :
  plain_name name → clean_step rooted out name = name :: out.
Proof.
  intros (_ & H1 & H2 & H3). unfold clean_step.
  by rewrite !decide_False.
Qed.

Lemma plain_name_not_rooted (name : string) : plain_name name → is_rooted name = false.
Proof.
  intros (He & Hn & _). destruct name as [|c name]; [done|]. simpl in *.
  destruct (Ascii.eqb c "/"); [|done]. by injection He.
Qed.

(** [Clean] keeps a plain name at the end of a path, after a part that
    the rest of the path alone decides. *)
Lemma Clean_plain_name (d : string) :
  ∃ q, ∀ name, plain_name name → Clean (d ++ "/" ++ name) = q ++ name.
Proof.
  set (rooted := is_rooted (d ++ "/" ++ "")).
  set (out := rev (foldl (clean_step rooted) [] (elements_of d))).
  exists ((if rooted then "/" else "")
          ++ match out with [] => "" | _ => strings_Join out "/" ++ "/" end).
  intros name Hn. unfold Clean.
  rewrite (is_rooted_app d name ""). fold rooted.
  rewrite elements_of_app. destruct Hn as (He & Hn).
  rewrite He, foldl_app. cbn [foldl].
  rewrite clean_step_plain by done. cbn [rev]. fold out.
  rewrite strings_Join_snoc.
  assert (Hres : (if rooted
                  then "/" ++ match out with
                              | [] => name
                              | _ :: _ => strings_Join out "/" ++ "/" ++ name
                              end
                  else match out with
                       | [] => name
                       | _ :: _ => strings_Join out "/" ++ "/" ++ name
                       end)
                 = ((if rooted then "/" else "")
                    ++ match out with [] => "" | _ => strings_Join out "/" ++ "/" end)
                   ++ name).
  { destruct rooted, out; simpl; rewrite ?string_app_assoc; done. }
  rewrite Hres. rewrite decide_False; [done|].
  destruct Hn as (Hne & _). intros Hempty.
  destruct ((if rooted then "/" else "")
            ++ match out with [] => "" | _ => strings_Join out "/" ++ "/" end);
    [by simpl in Hempty | done].
Qed.

Lemma Clean_plain_alone (name : string) : plain_name name → Clean name = name.
Proof.
  intros Hn. unfold Clean. rewrite plain_name_not_rooted by done.
  rewrite (proj1 Hn). cbn [foldl]. rewrite clean_step_plain by done.
  cbn [rev app strings_Join]. rewrite decide_False; [done | apply Hn].
Qed.

(** [filepath.Join] of a directory and a plain name: the name comes last,
    after a part that the directory alone decides. *)
Lemma filepath_Join_plain_name (dir : string) :
  ∃ q, ∀ name, plain_name name → filepath_Join [dir; name] = q ++ name.
Proof.
  destruct (decide (dir = "")) as [->|Hd].
  - exists "". intros name Hn. cbn [filepath_Join].
    rewrite decide_True by done. rewrite decide_False by apply Hn.
    cbn [strings_Join]. by apply Clean_plain_alone.
  - destruct (Clean_plain_name dir) as [q Hq]. exists q. intros name Hn.
    cbn [filepath_Join]. rewrite decide_False by done.
    cbn [strings_Join]. by apply Hq.
Qed.

Lemma plain_city_name : plain_name "GeoLite2-City.mmdb".
Proof. by repeat split. Qed.

Lemma plain_asn_name : plain_name "GeoLite2-ASN.mmdb".
Proof. by repeat split. Qed.

(** X8. For every directory the two database paths differ: both are the
    same cleaned directory part followed by the name of the file, so the two
    downloads never write the same file. *)
Theorem database_paths_differ (dir : string) :
  cityDB_of dir ≠ asnDB_of dir
  ∧ ∃ q, cityDB_of dir = q ++ "GeoLite2-City.mmdb"
         ∧ asnDB_of dir = q ++ "GeoLite2-ASN.mmdb".
Proof.
  destruct (filepath_Join_plain_name dir) as [q Hq].
  pose proof (Hq _ plain_city_name) as Hc.
  pose proof (Hq _ plain_asn_name) as Ha.
  split; [|by exists q].
  unfold cityDB_of, asnDB_of. rewrite Hc, Ha.
  intros Heq%string_app_inv_head. discriminate Heq.
Qed.

(** ** Provisioning, run by run *)

Section MoreProvisioning.

Variable E : Env.

Lemma geoip2_Open_run (file : string) (w : World) :
  geoip2_Open E file w =
    match load E (files w) file with
    | Err c => (Done (None, Some c), log (EvOpen file) w)
    | Ok db =>
        (Done (Some (length (readers w)), None),
         {| files := files w;
            readers := (readers w ++ [{| rd_db := db; rd_open := true |}])%list;
            trace := (trace w ++ [EvOpen file])%list |})
    end.
Proof.
  unfold geoip2_Open, load. simpl.
  destruct (files w !! file) as [content|]; [|done].
  by destruct (mmdb_decode E content).
Qed.

Lemma open_databases_run (i : IPInfo) (w : World) :
  open_databases E i w =
    match load E (files w) (cityDB_of (dbDir i)) with
    | Err c =>
        (Done (Some ("failed to open city database: " ++ c), with_cityReader i None),
         log (EvOpen (cityDB_of (dbDir i))) w)
    | Ok dbc =>
        match load E (files w) (asnDB_of (dbDir i)) with
        | Err c =>
            (Done (Some ("failed to open ASN database: " ++ c),
                   with_asnReader (with_cityReader i (Some (length (readers w)))) None),
             {| files := files w;
                readers := (readers w ++ [{| rd_db := dbc; rd_open := false |}])%list;
                trace := (trace w ++ [EvOpen (cityDB_of (dbDir i));
                                      EvOpen (asnDB_of (dbDir i));
                                      EvReaderClose (length (readers w))])%list |})
        | Ok dba =>
            (Done (None,
                   with_asnReader (with_cityReader i (Some (length (readers w))))
                     (Some (S (length (readers w))))),
             {| files := files w;
                readers := (readers w ++ [{| rd_db := dbc; rd_open := true |};
                                          {| rd_db := dba; rd_open := true |}])%list;
                trace := (trace w ++ [EvOpen (cityDB_of (dbDir i));
                                      EvOpen (asnDB_of (dbDir i))])%list |})
        end
    end.
Proof.
  unfold open_databases. unfold mbind, M_bind, mret, M_ret.
  rewrite geoip2_Open_run.
  destruct (load E (files w) (cityDB_of (dbDir i))) as [dbc|c]; [|done].
  rewrite geoip2_Open_run.
  cbn [files readers trace with_asnReader with_cityReader cityReader asnReader dbDir].
  destruct (load E (files w) (asnDB_of (dbDir i))) as [dba|c].
  - rewrite length_app, <-!app_assoc. cbn [length app].
    by replace (length (readers w) + 1) with (S (length (readers w))) by lia.
  - rewrite Reader_Close_run;
      [|done|by cbn [valid_reader readers log]; rewrite length_app; cbn [length]; lia].
    unfold log. cbn [files readers trace close_event].
    by rewrite close_in_last, <-!app_assoc.
Qed.

(** [ensureDatabases] is the two downloads, in turn, and then the opening. *)
Lemma ensureDatabases_run (i : IPInfo) (w : World) :
  ensureDatabases E i w =
    match download_if_missing E cityDBURL (cityDB_of (dbDir i)) w with
    | (Done (Some c), w1) =>
        (Done (Some ("failed to download city database: " ++ c), i), w1)
    | (Done None, w1) =>
        match download_if_missing E asnDBURL (asnDB_of (dbDir i)) w1 with
        | (Done (Some c), w2) =>
            (Done (Some ("failed to download ASN database: " ++ c), i), w2)
        | (Done None, w2) => open_databases E i w2
        | (Panic, w2) => (Panic, w2)
        end
    | (Panic, w1) => (Panic, w1)
    end.
Proof.
  unfold ensureDatabases, open_databases. unfold mbind, M_bind, mret, M_ret.
  destruct (download_if_missing E cityDBURL _ w) as [[[c|]|] w1]; try done.
  by destruct (download_if_missing E asnDBURL _ w1) as [[[c|]|] w2].
Qed.

Lemma download_if_missing_present (url path : string) (w : World) :
  files w !! path ≠ None →
  download_if_missing E url path w = (Done None, log (EvStat path) w).
Proof.
  intros Hp%(missing_present E). unfold download_if_missing, Stat_IsNotExist; run.
  unfold missing in Hp. by rewrite Hp.
Qed.

Lemma download_if_missing_not_missing (url path : string) (w : World) :
  missing E (files w) path = false →
  download_if_missing E url path w = (Done None, log (EvStat path) w).
Proof.
  intros Hp. unfold download_if_missing, Stat_IsNotExist; run.
  unfold missing in Hp. by rewrite Hp.
Qed.

(** A download, by how far it gets. *)
Lemma download_if_missing_shape (url path : string) (w : World) :
  ∃ err fs evs,
    download_if_missing E url path w =
      (Done err, {| files := fs; readers := readers w; trace := (trace w ++ evs)%list |})
    ∧ ((missing E (files w) path = false
        ∧ err = None ∧ fs = files w ∧ evs = [EvStat path])
       ∨ (missing E (files w) path = true ∧ fs = files w
          ∧ ∃ c, err = Some c
                 ∧ ((evs = [EvStat path; EvHttpGet url]
                     ∧ (Get E url = Err c
                        ∨ ∃ resp, Get E url = Ok resp ∧ StatusCode resp ≠ 200%Z))
                    ∨ (evs = [EvStat path; EvHttpGet url; EvCreate path]
                       ∧ Create_fault E path = Some c)))
       ∨ (missing E (files w) path = true
          ∧ evs = [EvStat path; EvHttpGet url; EvCreate path]
          ∧ ∃ resp written,
              Get E url = Ok resp ∧ StatusCode resp = 200%Z
              ∧ Create_fault E path = None
              ∧ fs = <[path := written]> (files w)
              ∧ written `prefix_of` Body resp
              ∧ (err = None → written = Body resp ∧ BodyErr resp = None)
              ∧ ((∀ n c, Write_fault E path = Some (n, c) → (length (Body resp) ≤ n)%nat)
                 → written = Body resp ∧ err = BodyErr resp))).
Proof.
  destruct (missing E (files w) path) eqn:Hf.
  2: { exists None, (files w), [EvStat path].
       rewrite download_if_missing_not_missing by done. split; [done|]. left. done. }
  unfold download_if_missing, Stat_IsNotExist.
  unfold mbind at 1, M_bind at 1. cbn [fst snd].
  fold (missing E (files w) path). rewrite Hf. rewrite downloadFile_run. cbn zeta.
  destruct (Get E url) as [resp|c] eqn:Hg.
  2: { exists (Some c), (files w), [EvStat path; EvHttpGet url].
       split; [world_eq|]. right; left. do 2 (split; [done|]).
       exists c. split; [done|]. left. auto. }
  case_bool_decide as Hs.
  { eexists _, (files w), [EvStat path; EvHttpGet url].
    split; [world_eq|]. right; left. do 2 (split; [done|]).
    eexists. split; [done|]. left. split; [done|]. right. by exists resp. }
  destruct (Create_fault E path) as [c|] eqn:Hc.
  { exists (Some c), (files w), [EvStat path; EvHttpGet url; EvCreate path].
    split; [world_eq|]. right; left. do 2 (split; [done|]).
    exists c. split; [done|]. by right. }
  edestruct (io_Copy_run E path resp) as (err & written & -> & Hcopy);
    [by apply lookup_insert_eq|].
  exists err, (<[path := written]> (files w)), [EvStat path; EvHttpGet url; EvCreate path].
  split.
  { unfold log, set_files. cbn [files readers trace].
    by rewrite insert_insert_eq, <-!app_assoc. }
  do 2 right. split; [done|]. split; [done|].
  exists resp, written. do 4 (split; [done|]).
  destruct Hcopy as [(-> & -> & Hw)|(n & c & -> & Hw & Hn & ->)].
  - split; [done|]. split; [done|]. done.
  - split; [apply prefix_take|]. split; [done|].
    intros Hno. apply Hno in Hw. lia.
Qed.

End MoreProvisioning.

(** ** Construction, further *)

Lemma db_paths_ne (dir : string) : cityDB_of dir ≠ asnDB_of dir.
Proof.
  destruct (filepath_Join_plain_name dir) as [q Hq].
  unfold cityDB_of, asnDB_of.
  rewrite (Hq _ plain_city_name), (Hq _ plain_asn_name).
  intros Heq%string_app_inv_head. discriminate Heq.
Qed.

Lemma not_DownloadError_home (c : error) :
  DownloadError ("failed to get user home directory: " ++ c) = false.
Proof. by vm_compute. Qed.

Lemma not_DownloadError_mkdir (c : error) :
  DownloadError ("failed to create database directory: " ++ c) = false.
Proof. by vm_compute. Qed.

Lemma not_DownloadError_open_city (c : error) :
  DownloadError ("failed to open city database: " ++ c) = false.
Proof. by vm_compute. Qed.

Lemma not_DownloadError_open_asn (c : error) :
  DownloadError ("failed to open ASN database: " ++ c) = false.
Proof. by vm_compute. Qed.

Section MoreConstruction.

Variable E : Env.

(** The directory [NewIPInfo] settles on, as the source computes it. *)
Lemma database_dir_run (dir0 dir : string) :
  database_dir E dir0 dir →
  (if decide (dir0 = "") then
     match UserHomeDir E with
     | Err err => Err ("failed to get user home directory: " ++ err)
     | Ok userHome => Ok (filepath_Join [userHome; ".zscan"; "geoip"])
     end
   else Ok dir0) = Ok dir.
Proof.
  unfold database_dir. destruct (decide (dir0 = "")) as [->|Hne].
  - by intros (home & -> & ->).
  - by intros ->.
Qed.

(** A download does not open, close or query anything. *)
Lemma download_if_missing_quiet (url path : string) (w : World) :
  ∃ err fs evs,
    download_if_missing E url path w =
      (Done err, {| files := fs; readers := readers w; trace := (trace w ++ evs)%list |})
    ∧ opened evs = [] ∧ closed evs = [] ∧ queried evs = [].
Proof.
  destruct (download_if_missing_shape E url path w) as (err & fs & evs & Hrun & Hsh).
  exists err, fs, evs. split; [done|].
  destruct Hsh as [(_ & _ & _ & ->)|[(_ & _ & c & _ & [[-> _]|[-> _]])|(_ & -> & _)]];
    done.
Qed.

(** A download in which nothing fails, call by call. *)
Lemma download_if_missing_clean_run (url path : string) (w : World) :
  missing E (files w) path = true → download_clean E url path →
  ∃ resp,
    Get E url = Ok resp
    ∧ download_if_missing E url path w =
        (Done None,
         {| files := <[path := Body resp]> (files w);
            readers := readers w;
            trace := (trace w ++ [EvStat path; EvHttpGet url; EvCreate path])%list |}).
Proof.
  intros Hm (resp & Hg & Hs & Hc & Hw & Hb). exists resp. split; [done|].
  unfold download_if_missing, Stat_IsNotExist.
  unfold mbind at 1, M_bind at 1. cbn [fst snd].
  fold (missing E (files w) path). rewrite Hm. rewrite downloadFile_run. cbn zeta.
  rewrite Hg, bool_decide_eq_false_2, Hc by (by intros ?).
  edestruct (io_Copy_run E path resp) as (err & written & -> & Hcopy);
    [by apply lookup_insert_eq|].
  destruct Hcopy as [(-> & -> & _)|(n & c' & _ & Hf & Hn & _)].
  - rewrite Hb. unfold log, set_files. cbn [files readers trace].
    by rewrite insert_insert_eq, <-!app_assoc.
  - apply Hw in Hf. lia.
Qed.

Lemma omap_app_nil {A B} (f : A → option B) (l1 l2 : list A) :
  omap f l1 = [] → omap f l2 = [] → omap f (l1 ++ l2)%list = [].
Proof. intros H1 H2. by rewrite omap_app, H1, H2. Qed.

Lemma ensureDatabases_failed_fetch (i i' : IPInfo) (w w' : World) (e : error) :
  ensureDatabases E i w = (Done (Some e, i'), w') → DownloadError e = true →
  readers w' = readers w
  ∧ ∃ evs, trace w' = (trace w ++ evs)%list
           ∧ opened evs = [] ∧ closed evs = [] ∧ queried evs = [].
Proof.
  rewrite ensureDatabases_run.
  destruct (download_if_missing_quiet cityDBURL (cityDB_of (dbDir i)) w)
    as (e1 & fs1 & evs1 & -> & Ho1 & Hc1 & Hq1).
  destruct e1 as [c|].
  { intros [= <- <- <-] _. split; [done|]. by exists evs1. }
  match goal with |- context [download_if_missing E asnDBURL ?p ?w1] =>
    destruct (download_if_missing_quiet asnDBURL p w1)
      as (e2 & fs2 & evs2 & -> & Ho2 & Hc2 & Hq2) end.
  cbn [readers trace] in *.
  destruct e2 as [c|].
  { intros [= <- <- <-] _. split; [done|]. exists (evs1 ++ evs2)%list.
    rewrite app_assoc. split; [done|].
    unfold opened, closed, queried in *. by rewrite !omap_app_nil. }
  rewrite open_databases_run. cbn [files readers trace].
  destruct (load E fs2 (cityDB_of (dbDir i))) as [dbc|c].
  2: { intros [= <- <- <-] Hd. by rewrite not_DownloadError_open_city in Hd. }
  destruct (load E fs2 (asnDB_of (dbDir i))) as [dba|c]; [done|].
  intros [= <- <- <-] Hd. by rewrite not_DownloadError_open_asn in Hd.
Qed.

(** X9. A fetch that fails stops construction before anything is opened:
    when [NewIPInfo] fails with a download error, no database file was
    opened, the readers are those of before, and nothing was closed or
    queried. *)
Theorem failed_fetch_opens_nothing (dir0 : string) (w w' : World) (e : error) :
  NewIPInfo E dir0 w = (Done (Err e), w') → DownloadError e = true →
  readers w' = readers w
  ∧ ∃ evs, trace w' = (trace w ++ evs)%list
           ∧ opened evs = [] ∧ closed evs = [] ∧ queried evs = [].
Proof.
  rewrite NewIPInfo_run.
  destruct (if decide (dir0 = "") then _ else _) as [dir|e0] eqn:Hdir.
  2: { intros [= <- <-] Hd. exfalso.
       destruct (decide (dir0 = "")); [|done].
       destruct (UserHomeDir E); [done|]. injection Hdir as <-.
       by rewrite not_DownloadError_home in Hd. }
  cbn zeta. destruct (MkdirAll E dir) as [c|].
  { intros [= <- <-] Hd. by rewrite not_DownloadError_mkdir in Hd. }
  destruct (ensureDatabases E _ (log (EvMkdirAll dir) w)) as [[[[e1|] i1]|] w1] eqn:Hens;
    [|done|done].
  intros [= <- <-] Hd.
  destruct (ensureDatabases_failed_fetch _ _ _ _ _ Hens Hd) as (Hr & evs & Ht & Ho & Hc & Hq).
  split; [done|]. exists (EvMkdirAll dir :: evs). rewrite Ht. cbn [trace log].
  by rewrite <-app_assoc.
Qed.

(** X10. The first construction in an empty directory, on which [os.Stat]
    does not fail but with not-exist, and with a server that answers both
    requests, fetches the city file and then the ASN file and writes each
    body to its own path; whether the resolver is then returned depends only
    on whether the two bodies are databases. *)
Theorem ensureDatabases_first_run (i : IPInfo) (w : World) :
  files w !! cityDB_of (dbDir i) = None →
  files w !! asnDB_of (dbDir i) = None →
  Stat_fault E (cityDB_of (dbDir i)) = None →
  Stat_fault E (asnDB_of (dbDir i)) = None →
  download_clean E cityDBURL (cityDB_of (dbDir i)) →
  download_clean E asnDBURL (asnDB_of (dbDir i)) →
  ∃ rc ra r w' evs,
    Get E cityDBURL = Ok rc ∧ Get E asnDBURL = Ok ra
    ∧ ensureDatabases E i w = (Done r, w')
    ∧ trace w' = (trace w ++ evs)%list
    ∧ fetches evs = [cityDBURL; asnDBURL]
    ∧ created evs = [cityDB_of (dbDir i); asnDB_of (dbDir i)]
    ∧ files w' = <[asnDB_of (dbDir i) := Body ra]>
                   (<[cityDB_of (dbDir i) := Body rc]> (files w))
    ∧ files w' !! cityDB_of (dbDir i) = Some (Body rc)
    ∧ files w' !! asnDB_of (dbDir i) = Some (Body ra)
    ∧ (r.1 = None
       ↔ ∃ dbc dba, mmdb_decode E (Body rc) = Ok dbc ∧ mmdb_decode E (Body ra) = Ok dba).
Proof.
  intros Hmc Hma Hsc Hsa Hcc Hca.
  pose proof (db_paths_ne (dbDir i)) as Hne.
  destruct (download_if_missing_clean_run cityDBURL _ w
              (proj2 (missing_iff E _ _) (conj Hsc Hmc)) Hcc) as (rc & Hgc & Hrunc).
  set (w1 := {| files := <[cityDB_of (dbDir i) := Body rc]> (files w);
                readers := readers w;
                trace := (trace w ++ [EvStat (cityDB_of (dbDir i)); EvHttpGet cityDBURL;
                                      EvCreate (cityDB_of (dbDir i))])%list |}) in *.
  assert (Hma1 : missing E (files w1) (asnDB_of (dbDir i)) = true).
  { apply missing_iff. split; [done|].
    unfold w1. cbn [files]. by rewrite lookup_insert_ne. }
  destruct (download_if_missing_clean_run asnDBURL _ w1 Hma1 Hca) as (ra & Hga & Hruna).
  exists rc, ra. rewrite ensureDatabases_run, Hrunc, Hruna, open_databases_run.
  cbn [files readers trace w1]. unfold load.
  rewrite lookup_insert_ne, !lookup_insert_eq by done.
  destruct (mmdb_decode E (Body rc)) as [dbc|c] eqn:Hdc;
    [destruct (mmdb_decode E (Body ra)) as [dba|c] eqn:Hda|];
    eexists _, _, _; (split; [done|]); (split; [done|]); (split; [reflexivity|]);
    cbn [trace files log fst]; (split; [by rewrite <-!app_assoc|]);
    (split; [done|]); (split; [done|]); (split; [done|]);
    (split; [by rewrite lookup_insert_ne, lookup_insert_eq|]);
    (split; [by rewrite lookup_insert_eq|]).
  - split; [eauto|done].
  - split; [done|]. by intros (? & ? & _ & [=]).
  - split; [done|]. by intros (? & ? & [=] & _).
Qed.

(** X11. Existence is the only check: whatever happens, [NewIPInfo] leaves
    every file that exists with the content it has.  It never fetches again,
    repairs or removes a file that is there. *)
Theorem NewIPInfo_keeps_existing_files (dir0 : string) (w : World) (q : string) :
  files w !! q ≠ None →
  files (NewIPInfo E dir0 w).2 !! q = files w !! q.
Proof.
  intros Hq. rewrite NewIPInfo_run.
  destruct (if decide (dir0 = "") then _ else _) as [dir|e0]; [|done].
  cbn zeta. destruct (MkdirAll E dir) as [c|]; [done|].
  destruct (ensureDatabases_spec E
              {| cityReader := None; asnReader := None; dbDir := dir |}
              (log (EvMkdirAll dir) w))
    as (err & i' & fs & rs & evs & -> & Hfr & _).
  destruct err; cbn [snd files]; by apply Hfr.
Qed.

(** X12. Construction can be repeated: after [NewIPInfo] has returned a
    resolver, a second [NewIPInfo] for the same directory returns one too,
    without fetching or creating anything; it opens two further readers and
    leaves the readers that exist as they are. *)
Theorem NewIPInfo_again (dir0 : string) (w w' : World) (i : IPInfo) :
  NewIPInfo E dir0 w = (Done (Ok i), w') →
  ∃ i2 w2 evs,
    NewIPInfo E dir0 w' = (Done (Ok i2), w2)
    ∧ trace w2 = (trace w' ++ evs)%list
    ∧ fetches evs = [] ∧ created evs = []
    ∧ files w2 = files w'
    ∧ dbDir i2 = dbDir i
    ∧ cityReader i2 = Some (length (readers w'))
    ∧ asnReader i2 = Some (S (length (readers w')))
    ∧ readers w' `prefix_of` readers w2.
Proof.
  intros (Hdir & Hmk & _ & dbc & dba & (cc & Hfc & Hdc) & (ca & Hfa & Hda))%NewIPInfo_Ok_inv.
  rewrite NewIPInfo_run, (database_dir_run _ _ Hdir). cbn zeta. rewrite Hmk.
  rewrite ensureDatabases_run. cbn [dbDir].
  rewrite download_if_missing_present by (cbn [log files]; congruence).
  rewrite download_if_missing_present by (cbn [log files]; congruence).
  rewrite open_databases_run. cbn [log files readers trace dbDir]. unfold load.
  rewrite Hfc, Hdc, Hfa, Hda.
  eexists _, _, _. split; [reflexivity|]. cbn [trace files readers].
  split; [by rewrite <-!app_assoc|]. do 6 (split; [done|]).
  by eexists.
Qed.

(** X13. A download that breaks off after the file was created leaves the
    file with the bytes written so far, and from then on the file counts as
    present: the next check fetches nothing and reports no error.  (The
    download is made for a file of which [os.Stat] says that it does not
    exist.) *)
Theorem interrupted_download_is_kept (url path : string) (w : World) (resp : Response) :
  files w !! path = None → Stat_fault E path = None →
  Get E url = Ok resp → StatusCode resp = 200%Z → Create_fault E path = None →
  ∃ err written w1,
    download_if_missing E url path w = (Done err, w1)
    ∧ files w1 !! path = Some written
    ∧ written `prefix_of` Body resp
    ∧ (err = None → written = Body resp)
    ∧ download_if_missing E url path w1 = (Done None, log (EvStat path) w1).
Proof.
  intros Hm Hst Hg Hs Hc.
  assert (Hmiss : missing E (files w) path = true) by (by apply missing_iff).
  destruct (download_if_missing_shape E url path w) as (err & fs & evs & Hrun & Hsh).
  destruct Hsh as [(Hp & _)|[(_ & _ & c & _ & [[_ [Hg'|(r' & Hg' & Hs')]]|[_ Hc']])
    |(_ & _ & resp' & written & Hg' & _ & _ & -> & Hpre & Hfull & _)]];
    try congruence.
  replace resp' with resp in * by congruence.
  exists err, written. eexists. split; [exact Hrun|]. cbn [files].
  split; [apply lookup_insert_eq|]. split; [done|]. split; [by intros [-> _]%Hfull|].
  apply download_if_missing_present. cbn [files]. by rewrite lookup_insert_eq.
Qed.

(** X14. A resolver that [NewIPInfo] returns holds two readers that did not
    exist before, one per database file as it is on disk, both open; the
    readers that existed keep their numbers and their state. *)
Theorem NewIPInfo_opens_two_new_readers (dir0 : string) (w w' : World) (i : IPInfo) :
  NewIPInfo E dir0 w = (Done (Ok i), w') →
  ∃ dbc dba,
    readers w' = (readers w ++ [{| rd_db := dbc; rd_open := true |};
                                {| rd_db := dba; rd_open := true |}])%list
    ∧ cityReader i = Some (length (readers w))
    ∧ asnReader i = Some (S (length (readers w)))
    ∧ opens_as E (files w') (cityDB_of (dbDir i)) dbc
    ∧ opens_as E (files w') (asnDB_of (dbDir i)) dba
    ∧ ∀ h, h < length (readers w) → readers w' !! h = readers w !! h.
Proof.
  rewrite NewIPInfo_run.
  destruct (if decide (dir0 = "") then _ else _) as [dir|e0]; [|done].
  cbn zeta. destruct (MkdirAll E dir) as [c|]; [done|].
  destruct (ensureDatabases_spec E
              {| cityReader := None; asnReader := None; dbDir := dir |}
              (log (EvMkdirAll dir) w))
    as (err & i' & fs & rs & evs & -> & _ & _ & _ & _ & Hout).
  cbn [log readers dbDir] in Hout.
  destruct Hout as [(c & -> & _)|[(c & -> & _)|
    [(c & -> & _)|[(c & dbc & -> & _)|(dbc & dba & -> & Ho1 & Ho2 & _ & -> & ->)]]]];
    try done.
  intros [= <- <-]. exists dbc, dba. cbn [files readers].
  do 5 (split; [done|]). intros h Hh. by rewrite lookup_app_l.
Qed.

Lemma not_ConfigError_provisioning (c : error) :
  ConfigError ("failed to download city database: " ++ c) = false
  ∧ ConfigError ("failed to download ASN database: " ++ c) = false
  ∧ ConfigError ("failed to open city database: " ++ c) = false
  ∧ ConfigError ("failed to open ASN database: " ++ c) = false.
Proof. by vm_compute. Qed.

(** X15. When the directory cannot be found or made, construction stops
    there: the files and the readers are untouched, and nothing was done
    beyond, at most, the attempt to make the directory. *)
Theorem config_error_stops_early (dir0 : string) (w w' : World) (e : error) :
  NewIPInfo E dir0 w = (Done (Err e), w') → ConfigError e = true →
  files w' = files w ∧ readers w' = readers w
  ∧ (trace w' = trace w
     ∨ ∃ dir, database_dir E dir0 dir ∧ MkdirAll E dir ≠ None
              ∧ trace w' = (trace w ++ [EvMkdirAll dir])%list).
Proof.
  rewrite NewIPInfo_run.
  destruct (if decide (dir0 = "") then _ else _) as [dir|e0] eqn:Hdir.
  2: { intros [= <- <-] _. auto. }
  assert (Hd : database_dir E dir0 dir).
  { unfold database_dir. destruct (decide (dir0 = "")) as [->|Hne].
    - destruct (UserHomeDir E) as [home|c]; [|done]. injection Hdir as <-. eauto.
    - by injection Hdir as <-. }
  cbn zeta. destruct (MkdirAll E dir) as [c|] eqn:Hmk.
  { intros [= <- <-] _. do 2 (split; [done|]). right. exists dir.
    split; [done|]. split; [congruence|done]. }
  destruct (ensureDatabases_spec E
              {| cityReader := None; asnReader := None; dbDir := dir |}
              (log (EvMkdirAll dir) w))
    as (err & i' & fs & rs & evs & -> & _ & _ & _ & _ & Hout).
  destruct Hout as [(c & -> & _)|[(c & -> & _)|
    [(c & -> & _)|[(c & dbc & -> & _)|(dbc & dba & -> & _)]]]];
    [| | | |done]; intros [= <- <-] Hc;
    destruct (not_ConfigError_provisioning c) as (H1 & H2 & H3 & H4); congruence.
Qed.

(** X16. [ensureDatabases] provisions first and opens afterwards: what it
    does falls into a first part, in which nothing is opened or closed, and a
    second part, in which nothing is fetched or created; and the ASN file is
    opened only after the city file. *)
Theorem ensureDatabases_provisions_before_opening (i : IPInfo) (w : World) :
  ∃ r w' evs1 evs2,
    ensureDatabases E i w = (Done r, w')
    ∧ trace w' = (trace w ++ evs1 ++ evs2)%list
    ∧ opened evs1 = [] ∧ closed evs1 = []
    ∧ fetches evs2 = [] ∧ created evs2 = []
    ∧ (opened evs2 = []
       ∨ opened evs2 = [cityDB_of (dbDir i)]
       ∨ opened evs2 = [cityDB_of (dbDir i); asnDB_of (dbDir i)]).
Proof.
  rewrite ensureDatabases_run.
  destruct (download_if_missing_quiet cityDBURL (cityDB_of (dbDir i)) w)
    as (e1 & fs1 & evs1 & -> & Ho1 & Hc1 & Hq1).
  destruct e1 as [c|].
  { eexists _, _, evs1, []. rewrite app_nil_r. split; [done|]. repeat split; auto. }
  match goal with |- context [download_if_missing E asnDBURL ?p ?w1] =>
    destruct (download_if_missing_quiet asnDBURL p w1)
      as (e2 & fs2 & evs2 & -> & Ho2 & Hc2 & Hq2) end.
  cbn [readers trace] in *.
  assert (Ho : opened (evs1 ++ evs2) = [])
    by (unfold opened in *; by rewrite omap_app_nil).
  assert (Hc : closed (evs1 ++ evs2) = [])
    by (unfold closed in *; by rewrite omap_app_nil).
  destruct e2 as [c|].
  { eexists _, _, (evs1 ++ evs2)%list, []. rewrite app_nil_r, app_assoc.
    split; [done|]. repeat split; auto. }
  rewrite open_databases_run. cbn [files readers trace].
  destruct (load E fs2 (cityDB_of (dbDir i))) as [dbc|c].
  2: { eexists _, _, (evs1 ++ evs2)%list, [EvOpen (cityDB_of (dbDir i))].
       split; [done|]. cbn [log trace]. rewrite <-!app_assoc.
       repeat split; auto. }
  destruct (load E fs2 (asnDB_of (dbDir i))) as [dba|c].
  - eexists _, _, (evs1 ++ evs2)%list,
      [EvOpen (cityDB_of (dbDir i)); EvOpen (asnDB_of (dbDir i))].
    split; [done|]. cbn [trace]. rewrite <-!app_assoc. repeat split; auto.
  - eexists _, _, (evs1 ++ evs2)%list,
      [EvOpen (cityDB_of (dbDir i)); EvOpen (asnDB_of (dbDir i));
       EvReaderClose (length (readers w))].
    split; [done|]. cbn [trace]. rewrite <-!app_assoc. repeat split; auto.
Qed.

End MoreConstruction.

(** * The plugin [hsguiserver.lua] *)

Section PluginFacts.

Import Plugin.

Lemma cons_app (a : ascii) (s t : string) : String a s ++ t = String a (s ++ t).
Proof. reflexivity. Qed.

Lemma literal_Some (p s rest : string) : literal p s = Some rest ↔ s = p ++ rest.
Proof.
  revert s. induction p as [|a p IH]; intros s.
  - change ("" ++ rest) with rest. simpl. split; congruence.
  - rewrite cons_app. destruct s as [|b s]; simpl; [done|].
    destruct (Ascii.eqb a b) eqn:Hab.
    + apply Ascii.eqb_eq in Hab as ->. rewrite IH. split; congruence.
    + apply Ascii.eqb_neq in Hab. split; [done | congruence].
Qed.

Lemma max_expand_all (class : ascii → bool) (s : string) :
  all_class class (max_expand class s) = true.
Proof.
  induction s as [|c s IH]; [done|]. simpl.
  destruct (class c) eqn:Hc; [|done]. simpl. by rewrite Hc.
Qed.

Lemma max_expand_split (class : ascii → bool) (s : string) :
  ∃ rest, s = max_expand class s ++ rest ∧ ends_run class rest = true.
Proof.
  induction s as [|c s (rest & IH & Hrest)].
  - by exists "".
  - simpl. destruct (class c) eqn:Hc.
    + exists rest. rewrite cons_app. by rewrite <-IH.
    + exists (String c s). simpl. by rewrite Hc.
Qed.

Lemma max_expand_app (class : ascii → bool) (v rest : string) :
  all_class class v = true → ends_run class rest = true →
  max_expand class (v ++ rest) = v.
Proof.
  induction v as [|c v IH]; intros Hv Hrest.
  - change ("" ++ rest) with rest. destruct rest as [|c rest]; [done|].
    simpl in *. by destruct (class c).
  - rewrite cons_app. simpl in *. apply andb_true_iff in Hv as [-> Hv].
    by rewrite IH.
Qed.

Lemma match_here_Some (s v : string) :
  match_here s = Some v
  ↔ ∃ rest, s = "hsguiserver/" ++ v ++ rest
            ∧ v ≠ "" ∧ all_class version_class v = true
            ∧ ends_run version_class rest = true.
Proof.
  unfold match_here. split.
  - destruct (literal "hsguiserver/" s) as [t|] eqn:Hl; [|done].
    apply literal_Some in Hl as ->.
    destruct (max_expand_split version_class t) as (rest & Ht & Hrest).
    pose proof (max_expand_all version_class t) as Hall.
    destruct (max_expand version_class t) as [|c v'] eqn:Hm; [done|].
    intros [= <-]. exists rest. by rewrite <-Ht.
  - intros (rest & -> & Hne & Hall & Hrest).
    rewrite (proj2 (literal_Some "hsguiserver/" _ (v ++ rest)) eq_refl).
    rewrite max_expand_app by done. by destruct v.
Qed.

Lemma match_here_None (s : string) : match_here s = None ↔ ¬ candidate s.
Proof.
  unfold match_here, candidate. split.
  - intros Hm (c & rest & -> & Hc).
    rewrite (proj2 (literal_Some "hsguiserver/" _ (String c rest)) eq_refl) in Hm.
    simpl in Hm. by rewrite Hc in Hm.
  - intros Hn. destruct (literal "hsguiserver/" s) as [t|] eqn:Hl; [|done].
    apply literal_Some in Hl as ->.
    destruct t as [|c t]; [done|]. simpl.
    destruct (version_class c) eqn:Hc; [|done].
    destruct Hn. by exists c, t.
Qed.

Lemma string_match_unfold (s : string) :
  string_match s
  = match match_here s with
    | Some v => Some v
    | None =>
        match s with
        | EmptyString => None
        | String _ s' => string_match s'
        end
    end.
Proof. by destruct s. Qed.

Lemma string_match_Some (s v : string) : string_match s = Some v ↔ first_match s v.
Proof.
  unfold first_match. split.
  - induction s as [|a s IH]; rewrite string_match_unfold.
    + destruct (match_here "") as [v'|] eqn:Hm; [|done].
      intros [= ->]. apply match_here_Some in Hm as (rest & Hs & Hv).
      exists "", rest. split; [done|]. repeat split; try apply Hv.
      intros pre' t _ Hlt. simpl in Hlt. lia.
    + destruct (match_here (String a s)) as [v'|] eqn:Hm.
      * intros [= ->]. apply match_here_Some in Hm as (rest & Hs & Hv).
        exists "", rest. split; [done|]. repeat split; try apply Hv.
        intros pre' t _ Hlt. simpl in Hlt. lia.
      * intros (pre & rest & -> & Hne & Hall & Hrest & Hleft)%IH.
        exists (String a pre), rest. split; [done|]. do 3 (split; [done|]).
        intros pre' t Heq Hlt. destruct pre' as [|a' pre'].
        -- change ("" ++ t) with t in Heq. subst t. by apply match_here_None.
        -- rewrite !cons_app in Heq. injection Heq as -> Heq.
           apply (Hleft pre' t Heq). simpl in Hlt. lia.
  - intros (pre & rest & -> & Hne & Hall & Hrest & Hleft).
    induction pre as [|a pre IH]; rewrite string_match_unfold.
    + change ("" ++ "hsguiserver/" ++ v ++ rest) with ("hsguiserver/" ++ v ++ rest).
      by rewrite (proj2 (match_here_Some _ v)) by eauto.
    + rewrite cons_app.
      rewrite (proj2 (match_here_None _)).
      2: { apply (Hleft "" _ eq_refl). simpl. lia. }
      apply IH. intros pre' t Heq Hlt.
      apply (Hleft (String a pre') t); [|simpl; lia].
      rewrite (cons_app a pre), (cons_app a pre'). by f_equal.
Qed.

Lemma string_match_None (s : string) : string_match s = None ↔ no_match s.
Proof.
  unfold no_match. split.
  - induction s as [|a s IH]; rewrite string_match_unfold.
    + destruct (match_here "") eqn:Hm; [done|]. intros _ pre t Heq.
      destruct pre; [|done]. change ("" ++ t) with t in Heq. subst t.
      by apply match_here_None.
    + destruct (match_here (String a s)) eqn:Hm; [done|]. intros Hs pre t Heq.
      destruct pre as [|a' pre].
      * change ("" ++ t) with t in Heq. subst t. by apply match_here_None.
      * rewrite cons_app in Heq. injection Heq as -> Heq. by apply (IH Hs pre).
  - intros Hn. induction s as [|a s IH]; rewrite string_match_unfold.
    + by rewrite (proj2 (match_here_None _)) by apply (Hn "" "" eq_refl).
    + rewrite (proj2 (match_here_None _)) by apply (Hn "" _ eq_refl).
      apply IH. intros pre t ->. by apply (Hn (String a pre) t).
Qed.

(** X17. [Analyze] never changes the headers and always leaves [Extra] a
    table, the one that was there if there was one.  It raises an error
    exactly when the table has no [Headers], and then [Extra] has been set
    all the same; without a [Server] header the version is left as it was. *)
Theorem Analyze_frame (info : Info) :
  Headers (final (Analyze info)) = Headers info
  ∧ Extra (final (Analyze info)) = Some (default ∅ (Extra info))
  ∧ ((∃ msg info', Analyze info = Raise msg info') ↔ Headers info = None)
  ∧ (∀ h, Headers info = Some h → h !! "Server" = None →
          Version (final (Analyze info)) = Version info).
Proof.
  unfold Analyze. cbn [Headers with_Extra].
  destruct (Headers info) as [h|] eqn:Hh.
  - destruct (h !! "Server") as [s|] eqn:Hs; cbn.
    + split; [done|]. split; [done|]. split; [split; [by intros (? & ? & ?) | done]|].
      intros h' [= <-] Hn. congruence.
    + split; [done|]. split; [done|]. split; [split; [by intros (? & ? & ?) | done]|].
      done.
  - cbn. split; [done|]. split; [done|]. split; [split; eauto|done].
Qed.

(** X18. With a [Server] header, the version [Analyze] stores is the
    capture of the first match of [hsguiserver/([%d%.]+)] in the header: the
    longest run of digits and dots right after the leftmost [hsguiserver/]
    that is followed by a digit or a dot. *)
Theorem Analyze_version_found (info : Info) (h : gmap string string) (s v : string) :
  Headers info = Some h → h !! "Server" = Some s →
  Version (final (Analyze info)) = Some v ↔ first_match s v.
Proof.
  intros Hh Hs. unfold Analyze. cbn [Headers with_Extra]. rewrite Hh, Hs. cbn.
  apply string_match_Some.
Qed.

(** X19. With a [Server] header in which the pattern matches nowhere, the
    version is set to [nil], also when the table came with a version; and
    the version is [nil] afterwards only in that case. *)
Theorem Analyze_version_erased (info : Info) (h : gmap string string) (s : string) :
  Headers info = Some h → h !! "Server" = Some s →
  Version (final (Analyze info)) = None ↔ no_match s.
Proof.
  intros Hh Hs. unfold Analyze. cbn [Headers with_Extra]. rewrite Hh, Hs. cbn.
  apply string_match_None.
Qed.

(** X20. Running [Analyze] on a table it has returned gives that table
    again. *)
Theorem Analyze_idempotent (info info' : Info) :
  Analyze info = Return info' → Analyze info' = Return info'.
Proof.
  unfold Analyze. cbn [Headers with_Extra].
  destruct (Headers info) as [h|] eqn:Hh; [|done].
  destruct (h !! "Server") as [s|] eqn:Hs; intros [= <-]; cbn; rewrite Hh, Hs; done.
Qed.

End PluginFacts.

(** * The further properties on the fixture *)

Lemma GetIPInfo_city_failure_stops_witness :
  net_ParseIP Fixture.env "192.0.2.1" = Some Fixture.test_ip
  ∧ city_answer (readers Fixture.world_open) (cityReader Cases.swapped) Fixture.test_ip
    = Done (Err Cases.city_error)
  ∧ ∃ hc, cityReader Cases.swapped = Some hc
          ∧ GetIPInfo Fixture.env Cases.swapped "192.0.2.1" Fixture.world_open
            = (Done (Err ("failed to query city information: " ++ Cases.city_error)),
               log (EvCity hc Fixture.test_ip) Fixture.world_open)
          ∧ GetIPInfo Fixture.env (with_asnReader Cases.swapped None) "192.0.2.1"
              Fixture.world_open
            = GetIPInfo Fixture.env Cases.swapped "192.0.2.1" Fixture.world_open.
Proof.
  split; [reflexivity|]. split; [reflexivity|].
  apply (GetIPInfo_city_failure_stops Fixture.env Cases.swapped "192.0.2.1"
           Fixture.world_open Fixture.test_ip Cases.city_error); reflexivity.
Defined.

Lemma Close_closes_both_witness :
  is_open Fixture.world_open (cityReader Fixture.resolver) = true
  ∧ is_open (Close Fixture.resolver Fixture.world_open).2 (cityReader Fixture.resolver)
    = false
  ∧ is_open (Close Fixture.resolver Fixture.world_open).2 (asnReader Fixture.resolver)
    = false.
Proof.
  split; [reflexivity|].
  assert (Hc : valid_reader Fixture.world_open (cityReader Fixture.resolver))
    by (simpl; lia).
  assert (Ha : valid_reader Fixture.world_open (asnReader Fixture.resolver))
    by (simpl; lia).
  destruct (Close_closes_both Fixture.resolver Fixture.world_open Hc Ha)
    as (H1 & H2 & _).
  split; [exact H1 | exact H2].
Defined.

Lemma Close_twice_witness :
  closed (drop (length (trace Fixture.world_open))
            (trace (Close Fixture.resolver
                      (Close Fixture.resolver Fixture.world_open).2).2))
  = (option_list (cityReader Fixture.resolver) ++ option_list (asnReader Fixture.resolver)
     ++ option_list (cityReader Fixture.resolver)
     ++ option_list (asnReader Fixture.resolver))%list.
Proof.
  assert (Hc : valid_reader Fixture.world_open (cityReader Fixture.resolver))
    by (simpl; lia).
  assert (Ha : valid_reader Fixture.world_open (asnReader Fixture.resolver))
    by (simpl; lia).
  exact (proj2 (Close_twice Fixture.resolver Fixture.world_open Hc Ha)).
Defined.

Lemma GetIPInfo_after_Close_witness :
  GetIPInfo Fixture.env Fixture.resolver "192.0.2.1"
    (Close Fixture.resolver Fixture.world_open).2
  = (Done (Err ("failed to query city information: " ++ closed_database)),
     log (EvCity 0 Fixture.test_ip) (Close Fixture.resolver Fixture.world_open).2)
  ∧ GetIPInfo Fixture.env Cases.swapped "192.0.2.1"
      (Close Cases.swapped Fixture.world_open).2
    = (Done (Err ("failed to query city information: " ++ Cases.city_error)),
       log (EvCity 1 Fixture.test_ip) (Close Cases.swapped Fixture.world_open).2).
Proof.
  split.
  - apply (GetIPInfo_after_Close Fixture.env Fixture.resolver "192.0.2.1"
             Fixture.world_open Fixture.test_ip 0
             {| rd_db := Fixture.city_db; rd_open := true |}).
    + reflexivity.
    + reflexivity.
    + simpl; lia.
    + reflexivity.
  - apply (GetIPInfo_after_Close Fixture.env Cases.swapped "192.0.2.1"
             Fixture.world_open Fixture.test_ip 1
             {| rd_db := Fixture.asn_db; rd_open := true |}).
    + reflexivity.
    + reflexivity.
    + simpl; lia.
    + reflexivity.
Defined.

Lemma failed_fetch_opens_nothing_witness :
  DownloadError "failed to download city database: bad status: 404 Not Found" = true
  ∧ readers (NewIPInfo Fixture.env_404 Fixture.dir Fixture.empty_world).2
    = readers Fixture.empty_world
  ∧ ∃ evs,
      trace (NewIPInfo Fixture.env_404 Fixture.dir Fixture.empty_world).2
      = (trace Fixture.empty_world ++ evs)%list
      ∧ opened evs = [] ∧ closed evs = [] ∧ queried evs = [].
Proof.
  split; [reflexivity|].
  apply (failed_fetch_opens_nothing Fixture.env_404 Fixture.dir Fixture.empty_world
           (NewIPInfo Fixture.env_404 Fixture.dir Fixture.empty_world).2
           "failed to download city database: bad status: 404 Not Found").
  - vm_compute; reflexivity.
  - reflexivity.
Defined.

Lemma download_clean_fixture_city :
  download_clean Fixture.env cityDBURL (cityDB_of (dbDir Fixture.unopened)).
Proof.
  exists (Fixture.ok_response [x01; x2a]).
  split; [reflexivity|]. split; [reflexivity|]. split; [reflexivity|].
  split; [|reflexivity]. intros n c Hf. discriminate Hf.
Qed.

Lemma download_clean_fixture_asn :
  download_clean Fixture.env asnDBURL (asnDB_of (dbDir Fixture.unopened)).
Proof.
  exists (Fixture.ok_response [x02; x2a]).
  split; [reflexivity|]. split; [reflexivity|]. split; [reflexivity|].
  split; [|reflexivity]. intros n c Hf. discriminate Hf.
Qed.

Lemma ensureDatabases_first_run_witness :
  ∃ rc ra r w' evs,
    Get Fixture.env cityDBURL = Ok rc ∧ Get Fixture.env asnDBURL = Ok ra
    ∧ ensureDatabases Fixture.env Fixture.unopened Fixture.empty_world = (Done r, w')
    ∧ trace w' = (trace Fixture.empty_world ++ evs)%list
    ∧ fetches evs = [cityDBURL; asnDBURL]
    ∧ created evs = [cityDB_of (dbDir Fixture.unopened); asnDB_of (dbDir Fixture.unopened)]
    ∧ files w' = <[asnDB_of (dbDir Fixture.unopened) := Body ra]>
                   (<[cityDB_of (dbDir Fixture.unopened) := Body rc]>
                      (files Fixture.empty_world))
    ∧ files w' !! cityDB_of (dbDir Fixture.unopened) = Some (Body rc)
    ∧ files w' !! asnDB_of (dbDir Fixture.unopened) = Some (Body ra)
    ∧ (r.1 = None
       ↔ ∃ dbc dba, mmdb_decode Fixture.env (Body rc) = Ok dbc
                    ∧ mmdb_decode Fixture.env (Body ra) = Ok dba).
Proof.
  apply (ensureDatabases_first_run Fixture.env Fixture.unopened Fixture.empty_world).
  - reflexivity.
  - reflexivity.
  - reflexivity.
  - reflexivity.
  - exact download_clean_fixture_city.
  - exact download_clean_fixture_asn.
Defined.

Lemma NewIPInfo_keeps_existing_files_witness :
  files Fixture.world_with_city !! Fixture.cityDB ≠ None
  ∧ files (NewIPInfo Fixture.env_offline Fixture.dir Fixture.world_with_city).2
      !! Fixture.cityDB
    = files Fixture.world_with_city !! Fixture.cityDB.
Proof.
  assert (Hq : files Fixture.world_with_city !! Fixture.cityDB ≠ None)
    by (vm_compute; discriminate).
  split; [exact Hq|].
  exact (NewIPInfo_keeps_existing_files Fixture.env_offline Fixture.dir
           Fixture.world_with_city Fixture.cityDB Hq).
Defined.

Lemma NewIPInfo_again_witness :
  ∃ i2 w2 evs,
    NewIPInfo Fixture.env Fixture.dir
      (NewIPInfo Fixture.env Fixture.dir Fixture.empty_world).2
    = (Done (Ok i2), w2)
    ∧ trace w2
      = (trace (NewIPInfo Fixture.env Fixture.dir Fixture.empty_world).2 ++ evs)%list
    ∧ fetches evs = [] ∧ created evs = []
    ∧ files w2 = files (NewIPInfo Fixture.env Fixture.dir Fixture.empty_world).2
    ∧ dbDir i2 = dbDir Fixture.resolver
    ∧ cityReader i2
      = Some (length (readers (NewIPInfo Fixture.env Fixture.dir Fixture.empty_world).2))
    ∧ asnReader i2
      = Some (S (length (readers (NewIPInfo Fixture.env Fixture.dir
                                    Fixture.empty_world).2)))
    ∧ readers (NewIPInfo Fixture.env Fixture.dir Fixture.empty_world).2
      `prefix_of` readers w2.
Proof.
  apply (NewIPInfo_again Fixture.env Fixture.dir Fixture.empty_world).
  vm_compute; reflexivity.
Defined.

Lemma interrupted_download_is_kept_witness :
  ∃ err written w1,
    download_if_missing Cases.env_cut_off cityDBURL Fixture.cityDB Fixture.empty_world
    = (Done err, w1)
    ∧ files w1 !! Fixture.cityDB = Some written
    ∧ written `prefix_of` Body Cases.cut_off
    ∧ (err = None → written = Body Cases.cut_off)
    ∧ download_if_missing Cases.env_cut_off cityDBURL Fixture.cityDB w1
      = (Done None, log (EvStat Fixture.cityDB) w1).
Proof.
  apply (interrupted_download_is_kept Cases.env_cut_off cityDBURL Fixture.cityDB
           Fixture.empty_world Cases.cut_off); reflexivity.
Defined.

(** On the fixture the interrupted download fails, and the next check of the
    same path reports nothing. *)
Example interrupted_download_fixture :
  (download_if_missing Cases.env_cut_off cityDBURL Fixture.cityDB Fixture.empty_world).1
  = Done (Some "unexpected EOF")
  ∧ (download_if_missing Cases.env_cut_off cityDBURL Fixture.cityDB
       (download_if_missing Cases.env_cut_off cityDBURL Fixture.cityDB
          Fixture.empty_world).2).1
    = Done None.
Proof. by vm_compute. Qed.

Lemma NewIPInfo_opens_two_new_readers_witness :
  ∃ dbc dba,
    readers (NewIPInfo Fixture.env Fixture.dir Fixture.empty_world).2
    = (readers Fixture.empty_world ++ [{| rd_db := dbc; rd_open := true |};
                                       {| rd_db := dba; rd_open := true |}])%list
    ∧ cityReader Fixture.resolver = Some (length (readers Fixture.empty_world))
    ∧ asnReader Fixture.resolver = Some (S (length (readers Fixture.empty_world)))
    ∧ opens_as Fixture.env
        (files (NewIPInfo Fixture.env Fixture.dir Fixture.empty_world).2)
        (cityDB_of (dbDir Fixture.resolver)) dbc
    ∧ opens_as Fixture.env
        (files (NewIPInfo Fixture.env Fixture.dir Fixture.empty_world).2)
        (asnDB_of (dbDir Fixture.resolver)) dba
    ∧ ∀ h, h < length (readers Fixture.empty_world) →
           readers (NewIPInfo Fixture.env Fixture.dir Fixture.empty_world).2 !! h
           = readers Fixture.empty_world !! h.
Proof.
  apply (NewIPInfo_opens_two_new_readers Fixture.env Fixture.dir Fixture.empty_world).
  vm_compute; reflexivity.
Defined.

Lemma Analyze_frame_witness :
  Plugin.Version (Plugin.final (Plugin.Analyze Plugin.sample_silent)) = Some "0.9"
  ∧ Plugin.Extra (Plugin.final (Plugin.Analyze Plugin.sample_bare)) = Some ∅
  ∧ ∃ msg info', Plugin.Analyze Plugin.sample_bare = Plugin.Raise msg info'.
Proof.
  destruct (Analyze_frame Plugin.sample_silent) as (_ & _ & _ & Hv).
  destruct (Analyze_frame Plugin.sample_bare) as (_ & He & Hr & _).
  split; [|split].
  - apply (Hv {[ "Content-Type" := "text/html" ]}); reflexivity.
  - exact He.
  - apply Hr. reflexivity.
Defined.

Lemma Analyze_version_found_witness :
  Plugin.Version (Plugin.final (Plugin.Analyze Plugin.sample)) = Some "2.4.1"
  ∧ Plugin.first_match "hsguiserver/2.4.1 (embedded)" "2.4.1".
Proof.
  assert (Hv : Plugin.Version (Plugin.final (Plugin.Analyze Plugin.sample)) = Some "2.4.1")
    by (vm_compute; reflexivity).
  split; [exact Hv|].
  apply (proj1 (Analyze_version_found Plugin.sample
                  {[ "Server" := "hsguiserver/2.4.1 (embedded)";
                     "Content-Type" := "text/html" ]}
                  "hsguiserver/2.4.1 (embedded)" "2.4.1" eq_refl
                  ltac:(vm_compute; reflexivity))).
  exact Hv.
Defined.

Lemma Analyze_version_erased_witness :
  Plugin.Version Plugin.sample_other = Some "0.9"
  ∧ Plugin.Version (Plugin.final (Plugin.Analyze Plugin.sample_other)) = None
  ∧ Plugin.no_match "nginx/1.25.3".
Proof.
  assert (Hv : Plugin.Version (Plugin.final (Plugin.Analyze Plugin.sample_other)) = None)
    by (vm_compute; reflexivity).
  split; [reflexivity|]. split; [exact Hv|].
  apply (proj1 (Analyze_version_erased Plugin.sample_other
                  {[ "Server" := "nginx/1.25.3" ]} "nginx/1.25.3" eq_refl
                  ltac:(vm_compute; reflexivity))).
  exact Hv.
Defined.

Lemma Analyze_idempotent_witness :
  Plugin.Analyze (Plugin.final (Plugin.Analyze Plugin.sample))
  = Plugin.Return (Plugin.final (Plugin.Analyze Plugin.sample)).
Proof.
  apply (Analyze_idempotent Plugin.sample).
  vm_compute; reflexivity.
Defined.

Lemma config_error_stops_early_witness :
  ConfigError "failed to get user home directory: $HOME is not defined" = true
  ∧ files (NewIPInfo Cases.env_no_home "" Fixture.world_with_city).2
    = files Fixture.world_with_city
  ∧ readers (NewIPInfo Cases.env_no_home "" Fixture.world_with_city).2
    = readers Fixture.world_with_city.
Proof.
  split; [reflexivity|].
  destruct (config_error_stops_early Cases.env_no_home "" Fixture.world_with_city
              (NewIPInfo Cases.env_no_home "" Fixture.world_with_city).2
              "failed to get user home directory: $HOME is not defined")
    as (Hf & Hr & _).
  - vm_compute; reflexivity.
  - reflexivity.
  - split; [exact Hf | exact Hr].
Defined.
